(** * Stub generator for C modules: a shallow embedding of [mypy/stubgenc.py]

    The development follows the source file top to bottom.  Python [str]
    values are modelled by [string] (sequences of 8-bit code points), Python
    lists by [list], [Optional[str]] by [option string], the override tables
    ([Dict[str, str]], only ever read) by finite lookup functions, and the
    lists the source appends to ([output], [imports]) by explicit state
    passing: a function that appends returns the extended list. *)

From Stdlib Require Import String Ascii List Bool Arith NArith Lia Permutation Sorted.
Import ListNotations.
Local Open Scope string_scope.
Local Open Scope list_scope.

(** String concatenation, kept apart from list concatenation. *)
Infix "+++" := String.append (right associativity, at level 60).

(** ** Python string primitives used by the source *)

Module PyStr.

(** [s.startswith(p)] *)
Fixpoint startswith (s p : string) {struct p} : bool :=
  match p with
  | EmptyString => true
  | String c p' =>
      match s with
      | EmptyString => false
      | String d s' => Ascii.eqb d c && startswith s' p'
      end
  end.

(** [s[n:]] *)
Fixpoint drop (n : nat) (s : string) : string :=
  match n, s with
  | O, _ => s
  | S _, EmptyString => EmptyString
  | S n', String _ s' => drop n' s'
  end.

(** [s[:n]] *)
Fixpoint take (n : nat) (s : string) : string :=
  match n, s with
  | O, _ => EmptyString
  | S _, EmptyString => EmptyString
  | S n', String c s' => String c (take n' s')
  end.

(** [s.endswith(p)] *)
Definition endswith (s p : string) : bool :=
  Nat.leb (String.length p) (String.length s)
  && String.eqb (drop (String.length s - String.length p) s) p.

(** [s[a:-b]] for literal non-negative [a] and [b] *)
Definition slice (a b : nat) (s : string) : string :=
  take (String.length s - b - a) (drop a s).

(** [c in s] for a one-character [c] *)
Fixpoint contains (c : ascii) (s : string) : bool :=
  match s with
  | EmptyString => false
  | String d s' => Ascii.eqb d c || contains c s'
  end.

(** [s.rindex(c)]; [None] stands for the [ValueError] of an absent [c] *)
Fixpoint rindex (c : ascii) (s : string) : option nat :=
  match s with
  | EmptyString => None
  | String d s' =>
      match rindex c s' with
      | Some i => Some (S i)
      | None => if Ascii.eqb d c then Some 0 else None
      end
  end.

(** [s.split(c, 1)]: the text before the first [c], and the text after it
    when there is one (a list of length one or two in Python). *)
Fixpoint split1 (c : ascii) (s : string) : string * option string :=
  match s with
  | EmptyString => (EmptyString, None)
  | String d s' =>
      if Ascii.eqb d c then (EmptyString, Some s')
      else let (h, r) := split1 c s' in (String d h, r)
  end.

(** [s.split(c)] *)
Fixpoint split (c : ascii) (s : string) : list string :=
  match s with
  | EmptyString => [EmptyString]
  | String d s' =>
      if Ascii.eqb d c then EmptyString :: split c s'
      else match split c s' with
           | h :: t => String d h :: t
           | [] => [String d EmptyString]
           end
  end.

(** Whitespace as [str.strip()] sees it on code points below 256. *)
Definition isspace (c : ascii) : bool :=
  let n := nat_of_ascii c in
  (Nat.leb 9 n && Nat.leb n 13) || (Nat.leb 28 n && Nat.leb n 32)
  || Nat.eqb n 133 || Nat.eqb n 160.

Fixpoint lstrip (s : string) : string :=
  match s with
  | EmptyString => EmptyString
  | String c s' => if isspace c then lstrip s' else s
  end.

Fixpoint rstrip (s : string) : string :=
  match s with
  | EmptyString => EmptyString
  | String c s' =>
      match rstrip s' with
      | EmptyString => if isspace c then EmptyString else String c EmptyString
      | r => String c r
      end
  end.

(** [s.strip()] *)
Definition strip (s : string) : string := rstrip (lstrip s).

(** [s.replace(', ', '')] *)
Fixpoint remove_comma_space (s : string) : string :=
  match s with
  | EmptyString => EmptyString
  | String c s' =>
      match s' with
      | String d r =>
          if Ascii.eqb c "," && Ascii.eqb d " " then remove_comma_space r
          else String c (remove_comma_space s')
      | EmptyString => String c EmptyString
      end
  end.

(** Truth value of a string: empty strings are false. *)
Definition nonempty (s : string) : bool :=
  match s with EmptyString => false | String _ _ => true end.

(** Truth value of an [Optional[str]]. *)
Definition truthy (o : option string) : bool :=
  match o with Some s => nonempty s | None => false end.

(** [x in (a, b, ...)] for strings *)
Definition mem (x : string) (l : list string) : bool :=
  existsb (String.eqb x) l.

(** [s1 < s2]: lexicographic order on code points. *)
Definition ltb (s1 s2 : string) : bool := String.ltb s1 s2.

End PyStr.

(** ** Override tables *)

(** A [Dict[str, str]] that is only read. *)
Definition Dict := string -> option string.

Definition empty_dict : Dict := fun _ => None.

(** [k in d] *)
Definition dict_mem (k : string) (d : Dict) : bool :=
  match d k with Some _ => true | None => false end.

(** [d.get(k, default)] *)
Definition dict_get (d : Dict) (k default : string) : string :=
  match d k with Some v => v | None => default end.

(** ** Runtime values *)

(** [type(obj)], as far as the source tells types apart: by identity with one
    of four builtin types, and otherwise by [__name__] only. *)
Inductive PyType : Type :=
| builtin_function_or_method   (* type(ord), type(str.__new__) *)
| method_descriptor            (* type(str.index) *)
| wrapper_descriptor           (* type(str.__add__) *)
| type_type                    (* type(int) *)
| other_type (name : string).

Definition PyType_eqb (a b : PyType) : bool :=
  match a, b with
  | builtin_function_or_method, builtin_function_or_method => true
  | method_descriptor, method_descriptor => true
  | wrapper_descriptor, wrapper_descriptor => true
  | type_type, type_type => true
  | _, _ => false
  end.

(** [t.__name__] *)
Definition type_name (t : PyType) : string :=
  match t with
  | builtin_function_or_method => "builtin_function_or_method"
  | method_descriptor => "method_descriptor"
  | wrapper_descriptor => "wrapper_descriptor"
  | type_type => "type"
  | other_type n => n
  end.

(** What the source observes of a runtime value: its type, the answers of the
    [inspect] probes, its documentation string and, for property-like values,
    whether [fget] exists and whether [fset] is [None].  Two more observations
    decide whether the source raises on the value: [has_fset], whether the
    value has an [fset] attribute at all ([getattr(prop, 'fset')] raises
    [AttributeError] without one), and [is_metaclass], whether the value is
    [type] or a subclass of it (for which [obj.mro()] is the unbound method
    and raises [TypeError]). *)
Record PyValue : Type := mkValue {
  py_type : PyType;
  isbuiltin : bool;
  ismethoddescriptor : bool;
  isdatadescriptor : bool;
  isclass : bool;
  ismodule : bool;
  py_doc : option string;
  has_fget : bool;
  fset_is_None : bool;
  has_fset : bool;
  is_metaclass : bool
}.

(** A class as it appears in a resolution order: its identity, [__name__],
    [__module__] and the identities of the classes in its own [__mro__]. *)
Record ClassRef : Type := mkClassRef {
  cls_id : nat;
  cls_name : string;
  cls_module : string;
  cls_ancestors : list nat
}.

(** The identity of [object]. *)
Definition object_id : nat := 0.

(** [issubclass(b, base)] *)
Definition issubclass (b base : ClassRef) : bool :=
  existsb (Nat.eqb (cls_id base)) (cls_ancestors b).

(** A value of a module's [__dict__]: its observable shape and, read only
    when the value is a type, its own [__dict__] (in enumeration order) and
    the result of [mro()]. *)
Record PyObj : Type := mkObj {
  shape : PyValue;
  obj_dict : list (string * PyValue);
  obj_mro : list ClassRef
}.

(** A loaded module: [__name__] and [__dict__] in enumeration order. *)
Record ModuleType : Type := mkModule {
  module_name : string;
  module_dict : list (string * PyObj)
}.

(** ** Classification probes (source lines 87-111) *)

Definition is_c_function (obj : PyValue) : bool :=
  isbuiltin obj || PyType_eqb (py_type obj) builtin_function_or_method.

Definition is_c_method (obj : PyValue) : bool :=
  ismethoddescriptor obj
  || existsb (PyType_eqb (py_type obj))
       [method_descriptor; wrapper_descriptor; builtin_function_or_method].

Definition is_c_classmethod (obj : PyValue) : bool :=
  isbuiltin obj
  || PyStr.mem (type_name (py_type obj)) ["classmethod"; "classmethod_descriptor"].

Definition is_c_property (obj : PyValue) : bool :=
  isdatadescriptor obj && has_fget obj.

Definition is_c_property_readonly (prop : PyValue) : bool :=
  fset_is_None prop.

Definition is_c_type (obj : PyValue) : bool :=
  isclass obj || PyType_eqb (py_type obj) type_type.

(** ** Name heuristics (source lines 292-335) *)

Definition is_dunder (name : string) : bool :=
  PyStr.startswith name "__" && PyStr.endswith name "__".

Definition method_name_sort_key (name : string) : nat * string :=
  if PyStr.mem name ["__new__"; "__init__"] then (0, name)
  else if is_dunder name then (2, name)
  else (1, name).

Definition is_skipped_attribute (attr : string) : bool :=
  PyStr.mem attr ["__getattribute__"; "__str__"; "__repr__"; "__doc__";
                  "__dict__"; "__module__"; "__weakref__"].

(** The names the source maps to the signature [(other)]. *)
Definition other_operator_names : list string :=
  ["eq"; "ne"; "lt"; "le"; "gt"; "ge";
   "add"; "radd"; "sub"; "rsub"; "mul"; "rmul";
   "mod"; "rmod"; "floordiv"; "rfloordiv"; "truediv"; "rtruediv";
   "divmod"; "rdivmod"; "pow"; "rpow"].

Definition infer_method_sig (name : string) : string :=
  if is_dunder name then
    let name := PyStr.slice 2 2 name in
    if PyStr.mem name ["hash"; "iter"; "next"; "sizeof"; "copy"; "deepcopy";
                       "reduce"; "getinitargs"; "int"; "float"; "trunc";
                       "complex"; "bool"] then "()"
    else if String.eqb name "getitem" then "(index)"
    else if String.eqb name "setitem" then "(index, object)"
    else if PyStr.mem name ["delattr"; "getattr"] then "(name)"
    else if String.eqb name "setattr" then "(name, value)"
    else if String.eqb name "getstate" then "()"
    else if String.eqb name "setstate" then "(state)"
    else if PyStr.mem name other_operator_names then "(other)"
    else if PyStr.mem name ["neg"; "pos"] then "()"
    else "(*args, **kwargs)"
  else "(*args, **kwargs)".

(** ** Type name resolution (source lines 173-194) *)

(** Returns the stripped name and the import list after the call. *)
Definition strip_or_import (typ : string) (module : ModuleType)
    (imports : list string) : string * list string :=
  if PyStr.startswith typ (module_name module) then
    (PyStr.drop (String.length (module_name module) + 1) typ, imports)
  else if PyStr.contains "." typ then
    let arg_module :=
      match PyStr.rindex "." typ with
      | Some i => PyStr.take i typ
      | None => typ
      end in
    if String.eqb arg_module "builtins" then
      (PyStr.drop (String.length "builtins" + 1) typ, imports)
    else (typ, imports ++ ["import " +++ arg_module])
  else (typ, imports).

(** ** Sorting: [sorted(xs, key=...)]

    Python's sort is stable and compares keys with [<] only; a stable
    insertion sort computes the same list. *)

Fixpoint insert_by {A : Type} (lt : A -> A -> bool) (x : A) (l : list A) : list A :=
  match l with
  | [] => [x]
  | y :: l' => if lt y x then y :: insert_by lt x l' else x :: l
  end.

Definition sorted {A : Type} (lt : A -> A -> bool) (l : list A) : list A :=
  fold_right (insert_by lt) [] l.

(** [<] on the [(int, str)] tuples of [method_name_sort_key]. *)
Definition tuple_ltb (a b : nat * string) : bool :=
  Nat.ltb (fst a) (fst b) || (Nat.eqb (fst a) (fst b) && PyStr.ltb (snd a) (snd b)).

(** ** Whole-word search: [re.search(r'\bNAME\b', line)] *)

(** [\w] on code points below 256. *)
Definition isword (c : ascii) : bool :=
  let n := nat_of_ascii c in
  (Nat.leb 48 n && Nat.leb n 57) || (Nat.leb 65 n && Nat.leb n 90)
  || (Nat.leb 97 n && Nat.leb n 122) || Nat.eqb n 95
  || existsb (Nat.eqb n) [170; 178; 179; 181; 185; 186; 188; 189; 190]
  || (Nat.leb 192 n && Nat.leb n 255 && negb (Nat.eqb n 215) && negb (Nat.eqb n 247)).

(** [\b] between an optional previous and an optional next character. *)
Definition word_boundary (prev next : option ascii) : bool :=
  xorb (match prev with Some c => isword c | None => false end)
       (match next with Some c => isword c | None => false end).

Definition first_char (s : string) : option ascii :=
  match s with EmptyString => None | String c _ => Some c end.

(** The character that stands just before the end of [s], [prev] being the
    one that stands just before its start. *)
Fixpoint last_char (prev : option ascii) (s : string) : option ascii :=
  match s with
  | EmptyString => prev
  | String c s' => last_char (Some c) s'
  end.

(** No character, or one that [\w] does not match. *)
Definition not_word (c : option ascii) : bool :=
  match c with Some c => negb (isword c) | None => true end.

(** Does [\bNAME\b] match at the start of [s], the character before [s]
    being [prev]? *)
Definition word_at (name : string) (prev : option ascii) (s : string) : bool :=
  PyStr.startswith s name
  && word_boundary prev (first_char s)
  && word_boundary (last_char prev name)
       (first_char (PyStr.drop (String.length name) s)).

Fixpoint search_from (name : string) (prev : option ascii) (s : string) : bool :=
  word_at name prev s
  || match s with
     | EmptyString => false
     | String c s' => search_from name (Some c) s'
     end.

Definition re_search_word (name line : string) : bool :=
  search_from name None line.

(** ** Output of the typing import (source lines 76-84) *)

Definition typing_names : list string :=
  ["Any"; "Union"; "Tuple"; "Optional"; "List"; "Dict"].

Definition add_typing_import (output : list string) : list string :=
  let names :=
    filter (fun name => existsb (re_search_word name) output) typing_names in
  match names with
  | [] => output
  | _ :: _ => ("from typing import " +++ String.concat ", " names) :: "" :: output
  end.

(** ** Effects of the entry point *)

Inductive Failure : Type :=
| ImportError | AssertionError | OSError
| TypeError | IndexError | AttributeError.

(** What a run does to the file system, in order. *)
Inductive Event : Type :=
| EvMakedirs (path : string)
| EvOpen (path : string)
| EvWrite (text : string)
| EvClose.

(** The collaborators of the entry point that are not part of this file:
    the module loader, [mypy.stubutil.is_c_module], [os.path] and the file
    system.  [import_module] returns [None] when the import raises;
    [makedirs] and [open_w] tell whether the call succeeds. *)
Record Host : Type := mkHost {
  import_module : string -> option ModuleType;
  is_c_module : ModuleType -> bool;
  dirname : string -> string;
  isdir : string -> bool;
  makedirs : string -> bool;
  open_w : string -> bool;
  write_header : string -> list string
}.

Section Generator.

(** The two docstring parsers of [mypy.stubutil], and the order in which a
    [set] of strings is enumerated. *)
Variable infer_sig_from_docstring : option string -> string -> option (string * string).
Variable infer_prop_type_from_docstring : option string -> option string.
Variable set_of : list string -> list string.

(** *** [generate_c_function_stub] (source lines 114-170) *)

(** Lines 124-142: the signature text and the return type. *)
Definition choose_sig (name : string) (obj : PyValue) (sigs : Dict)
    (class_name : option string) (class_sigs : Dict) : string * string :=
  let ret_type :=
    if String.eqb name "__init__" && PyStr.truthy class_name then "None" else "Any" in
  let overridden :=
    PyStr.mem name ["__new__"; "__init__"] && negb (dict_mem name sigs)
    && PyStr.truthy class_name in
  match (if overridden then
           match class_name with Some c => class_sigs c | None => None end
         else None) with
  | Some sig => (sig, ret_type)
  | None =>
      match infer_sig_from_docstring (py_doc obj) name with
      | Some inferred => inferred
      | None =>
          if PyStr.truthy class_name && negb (dict_mem name sigs)
          then (infer_method_sig name, ret_type)
          else (dict_get sigs name "(*args, **kwargs)", ret_type)
      end
  end.

(** Lines 126-129 and 144-153: the receiver prefix and the parameter text
    with an annotated receiver replaced by the bare one. *)
Definition place_self (self_var : option string) (sig : string) : string * string :=
  let self_arg :=
    match self_var with
    | Some v => if PyStr.nonempty v then v +++ ", " else ""
    | None => ""
    end in
  if PyStr.nonempty sig then
    match self_var with
    | Some v =>
        if PyStr.nonempty v then
          let groups := PyStr.split1 "," sig in
          if String.eqb (fst groups) v || PyStr.startswith (fst groups) (v +++ ":")
          then ("",
                match snd groups with
                | Some rest => v +++ "," +++ rest
                | None => v
                end)
          else (self_arg, sig)
        else (self_arg, sig)
    | None => (self_arg, sig)
    end
  else (PyStr.remove_comma_space self_arg, sig).

(** Lines 159-166: one parameter of the signature. *)
Definition render_arg (module : ModuleType) (st : list string * list string)
    (arg : string) : list string * list string :=
  let (sig_types, imports) := st in
  match PyStr.split1 ":" arg with
  | (a, None) => (sig_types ++ [PyStr.strip a], imports)
  | (a, Some t) =>
      let (arg_type_name, imports') := strip_or_import (PyStr.strip t) module imports in
      (sig_types ++ [PyStr.strip a +++ ": " +++ arg_type_name], imports')
  end.

(** Lines 155-167. *)
Definition render_sig (module : ModuleType) (sig : string) (imports : list string)
    : string * list string :=
  if PyStr.nonempty sig then
    let (sig_types, imports') :=
      fold_left (render_arg module) (PyStr.split "," sig) ([], imports) in
    (String.concat ", " sig_types, imports')
  else (sig, imports).

(** Returns [output] and [imports] after the call. *)
Definition generate_c_function_stub (module : ModuleType) (name : string)
    (obj : PyValue) (output imports : list string) (self_var : option string)
    (sigs : Dict) (class_name : option string) (class_sigs : Dict)
    : list string * list string :=
  let (sig, ret_type) := choose_sig name obj sigs class_name class_sigs in
  let sig := PyStr.slice 1 1 sig in
  let (self_arg, sig) := place_self self_var sig in
  let (sig, imports) := render_sig module sig imports in
  let (ret_type, imports) := strip_or_import ret_type module imports in
  (output ++ ["def " +++ name +++ "(" +++ self_arg +++ sig +++ ") -> " +++ ret_type +++ ": ..."],
   imports).

(** *** [generate_c_property_stub] (source lines 197-207) *)

Definition generate_c_property_stub (name : string) (obj : PyValue)
    (output : list string) (readonly : bool) : list string :=
  let inferred :=
    match infer_prop_type_from_docstring (py_doc obj) with
    | Some t => if PyStr.nonempty t then t else "Any"
    | None => "Any"
    end in
  output
    ++ ["@property"; "def " +++ name +++ "(self) -> " +++ inferred +++ ": ..."]
    ++ (if readonly then []
        else ["@" +++ name +++ ".setter";
              "def " +++ name +++ "(self, val: " +++ inferred +++ ") -> None: ..."]).

(** *** [generate_c_type_stub] (source lines 210-289) *)

(** State of the member loop: [methods], [properties], [done], [imports]. *)
Record MemberState : Type := mkMemberState {
  ms_methods : list string;
  ms_properties : list string;
  ms_done : list string;
  ms_imports : list string
}.

(** Lines 225-247: one iteration of the member loop, when it raises
    nothing ([member_raises] below tells when it does). *)
Definition member_step (module : ModuleType) (class_name : string)
    (obj_dict : list (string * PyValue)) (sigs class_sigs : Dict)
    (st : MemberState) (item : string * PyValue) : MemberState :=
  let (attr, value) := item in
  if is_c_method value || is_c_classmethod value then
    let done := ms_done st ++ [attr] in
    if negb (is_skipped_attribute attr) then
      let methods :=
        if is_c_classmethod value then ms_methods st ++ ["@classmethod"]
        else ms_methods st in
      let self_var := if is_c_classmethod value then "cls" else "self" in
      if String.eqb attr "__new__" && PyStr.mem "__init__" (map fst obj_dict) then
        mkMemberState methods (ms_properties st) done (ms_imports st)
      else
        let attr := if String.eqb attr "__new__" then "__init__" else attr in
        let (methods', imports') :=
          generate_c_function_stub module attr value methods (ms_imports st)
            (Some self_var) sigs (Some class_name) class_sigs in
        mkMemberState methods' (ms_properties st) done imports'
    else mkMemberState (ms_methods st) (ms_properties st) done (ms_imports st)
  else if is_c_property value then
    mkMemberState (ms_methods st)
      (generate_c_property_stub attr value (ms_properties st)
         (is_c_property_readonly value))
      (ms_done st ++ [attr]) (ms_imports st)
  else st.

(** Lines 255-264: the resolution order without a final [object], without a
    final class named [pybind11_object], and without its first entry.  (A
    resolution order is never empty; on an empty list nothing is removed.) *)
Definition drop_roots (mro : list ClassRef) : list ClassRef :=
  let all_bases :=
    match last (map Some mro) None with
    | Some c => if Nat.eqb (cls_id c) object_id then removelast mro else mro
    | None => mro
    end in
  let all_bases :=
    match last (map Some all_bases) None with
    | Some c =>
        if String.eqb (cls_name c) "pybind11_object" then removelast all_bases
        else all_bases
    | None => all_bases
    end in
  tl all_bases.

(** Lines 266-269: bases that are not implied by an earlier kept base. *)
Definition keep_base (bases : list ClassRef) (base : ClassRef) : list ClassRef :=
  if existsb (fun b => issubclass b base) bases then bases else bases ++ [base].

Definition minimal_bases (mro : list ClassRef) : list ClassRef :=
  fold_left keep_base (drop_roots mro) [].

(** Lines 272-276: one rendered base, and the imports it records. *)
Definition render_base (module : ModuleType) (st : list string * list string)
    (base : ClassRef) : list string * list string :=
  let (names, imports) := st in
  let (n, imports') :=
    strip_or_import (cls_module base +++ "." +++ cls_name base) module imports in
  (names ++ [n], imports').

(** Lines 270-279. *)
Definition render_bases (module : ModuleType) (bases : list ClassRef)
    (imports : list string) : string * list string :=
  match bases with
  | [] => ("", imports)
  | _ :: _ =>
      let (names, imports') := fold_left (render_base module) bases ([], imports) in
      ("(" +++ String.concat ", " names +++ ")", imports')
  end.

Definition indent (line : string) : string := "    " +++ line.

(** Returns [output] and [imports] after the call, when the call raises
    nothing ([type_stub_failure] below tells when it does). *)
Definition generate_c_type_stub (module : ModuleType) (class_name : string)
    (obj : PyObj) (output imports : list string) (sigs class_sigs : Dict)
    : list string * list string :=
  let items :=
    sorted (fun x y => tuple_ltb (method_name_sort_key (fst x))
                                 (method_name_sort_key (fst y)))
           (obj_dict obj) in
  let st :=
    fold_left (member_step module class_name (obj_dict obj) sigs class_sigs)
      items (mkMemberState [] [] [] imports) in
  let variables :=
    map (fun item => fst item +++ ": Any = ...")
      (filter (fun item => negb (is_skipped_attribute (fst item))
                           && negb (PyStr.mem (fst item) (ms_done st)))
              items) in
  let bases := minimal_bases (obj_mro obj) in
  let (bases_str, imports') := render_bases module bases (ms_imports st) in
  match ms_methods st, variables, ms_properties st with
  | [], [], [] => (output ++ ["class " +++ class_name +++ bases_str +++ ": ..."], imports')
  | _, _, _ =>
      (output ++ ["class " +++ class_name +++ bases_str +++ ":"]
         ++ map indent variables ++ map indent (ms_methods st)
         ++ map indent (ms_properties st),
       imports')
  end.

(** *** [generate_stub_for_c_module] (source lines 19-73) *)

(** [sorted(module.__dict__.items(), key=lambda x: x[0])] *)
Definition sorted_items {V : Type} (d : list (string * V)) : list (string * V) :=
  sorted (fun x y => PyStr.ltb (fst x) (fst y)) d.

(** State of the first two passes: the lines produced, [imports], [done]. *)
Record PassState : Type := mkPassState {
  ps_lines : list string;
  ps_imports : list string;
  ps_done : list string
}.

(** Lines 34-37: one iteration of the function pass. *)
Definition function_step (module : ModuleType) (sigs : Dict)
    (st : PassState) (item : string * PyObj) : PassState :=
  let (name, obj) := item in
  if is_c_function (shape obj) then
    let (functions, imports) :=
      generate_c_function_stub module name (shape obj) (ps_lines st)
        (ps_imports st) None sigs None empty_dict in
    mkPassState functions imports (ps_done st ++ [name])
  else st.

(** Lines 39-45: one iteration of the type pass. *)
Definition type_step (module : ModuleType) (sigs class_sigs : Dict)
    (st : PassState) (item : string * PyObj) : PassState :=
  let (name, obj) := item in
  if is_dunder name then st
  else if is_c_type (shape obj) then
    let (types, imports) :=
      generate_c_type_stub module name obj (ps_lines st) (ps_imports st)
        sigs class_sigs in
    mkPassState types imports (ps_done st ++ [name])
  else st.

(** Lines 47-54: one iteration of the variable pass. *)
Definition variable_step (done : list string) (variables : list string)
    (item : string * PyObj) : list string :=
  let (name, obj) := item in
  if is_dunder name then variables
  else if negb (PyStr.mem name done) && negb (ismodule (shape obj)) then
    let type_str := type_name (py_type (shape obj)) in
    let type_str :=
      if PyStr.mem type_str ["int"; "str"; "bytes"; "float"; "bool"]
      then type_str else "Any" in
    variables ++ [name +++ ": " +++ type_str]
  else variables.

(** Lines 64-67: one class-stub line, preceded by a blank line when it
    opens a class and the previous line is not blank. *)
Definition append_type_line (output : list string) (line : string) : list string :=
  if PyStr.startswith line "class" && PyStr.nonempty (last output "")
  then output ++ [""; line]
  else output ++ [line].

(** Lines 55-67: the sections put together. *)
Definition assemble (imports variables functions types : list string) : list string :=
  let output := sorted PyStr.ltb (set_of imports) ++ variables in
  let output :=
    match output, functions with
    | _ :: _, _ :: _ => output ++ [""]
    | _, _ => output
    end in
  let output := output ++ functions in
  fold_left append_type_line types output.

(** The three passes over the sorted items (lines 30-54). *)
Definition function_pass (module : ModuleType) (sigs : Dict) : PassState :=
  fold_left (function_step module sigs) (sorted_items (module_dict module))
    (mkPassState [] [] []).

Definition type_pass (module : ModuleType) (sigs class_sigs : Dict) : PassState :=
  let fp := function_pass module sigs in
  fold_left (type_step module sigs class_sigs) (sorted_items (module_dict module))
    (mkPassState [] (ps_imports fp) (ps_done fp)).

Definition variable_pass (module : ModuleType) (sigs class_sigs : Dict) : list string :=
  fold_left (variable_step (ps_done (type_pass module sigs class_sigs)))
    (sorted_items (module_dict module)) [].

(** Lines 30-68: the lines of the stub. *)
Definition stub_lines (module : ModuleType) (sigs class_sigs : Dict) : list string :=
  let functions := ps_lines (function_pass module sigs) in
  let tp := type_pass module sigs class_sigs in
  let variables := variable_pass module sigs class_sigs in
  add_typing_import (assemble (ps_imports tp) variables functions (ps_lines tp)).

(** Lines 245-247: [is_c_property_readonly] reads [fset] of a member that is
    not method-like and is property-like; it raises when there is none. *)
Definition member_raises (item : string * PyValue) : bool :=
  negb (is_c_method (snd item) || is_c_classmethod (snd item))
  && is_c_property (snd item) && negb (has_fset (snd item)).

(** The exception [generate_c_type_stub] raises on a type, if any: in the
    member loop for a property-like member without [fset]; at line 255 for a
    metaclass; at line 256 for an empty resolution order. *)
Definition type_stub_failure (obj : PyObj) : option Failure :=
  if existsb member_raises (obj_dict obj) then Some AttributeError
  else if is_metaclass (shape obj) then Some TypeError
  else match obj_mro obj with
       | [] => Some IndexError
       | _ :: _ => None
       end.

(** The first exception of the type pass (lines 39-45), if any. *)
Fixpoint first_failure (items : list (string * PyObj)) : option Failure :=
  match items with
  | [] => None
  | item :: rest =>
      if negb (is_dunder (fst item)) && is_c_type (shape (snd item)) then
        match type_stub_failure (snd item) with
        | Some failure => Some failure
        | None => first_failure rest
        end
      else first_failure rest
  end.

(** The exception raised while the lines are built (lines 30-68), if any. *)
Definition stub_failure (module : ModuleType) : option Failure :=
  first_failure (sorted_items (module_dict module)).

(** The entry point: the file-system events of a run, in order, and the
    exception it ends with, if any.  The lines are built after the directory
    is prepared and before the target is opened; [stub_lines] are the lines
    of a run in which building them raises nothing. *)
Definition generate_stub_for_c_module (host : Host) (module_name0 target : string)
    (add_header : bool) (sigs class_sigs : Dict) : list Event * option Failure :=
  match import_module host module_name0 with
  | None => ([], Some ImportError)
  | Some module =>
      if negb (is_c_module host module) then ([], Some AssertionError)
      else
        let subdir := dirname host target in
        let need_dir := PyStr.nonempty subdir && negb (isdir host subdir) in
        if need_dir && negb (makedirs host subdir) then ([], Some OSError)
        else
          let prepared := if need_dir then [EvMakedirs subdir] else [] in
          match stub_failure module with
          | Some failure => (prepared, Some failure)
          | None =>
              let output := stub_lines module sigs class_sigs in
              if negb (open_w host target) then (prepared, Some OSError)
              else
                (prepared ++ [EvOpen target]
                   ++ (if add_header then map EvWrite (write_header host module_name0)
                       else [])
                   ++ map (fun line => EvWrite (line +++ String (ascii_of_nat 10) ""))
                        output
                   ++ [EvClose],
                 None)
          end
  end.

End Generator.

(** ** Stand-ins for [mypy.stubutil] and for set enumeration *)

Definition sig_char (c : ascii) : bool :=
  let n := nat_of_ascii c in
  (Nat.leb 48 n && Nat.leb n 57) || (Nat.leb 65 n && Nat.leb n 90)
  || (Nat.leb 97 n && Nat.leb n 122)
  || existsb (Ascii.eqb c) ["_"; "="; ":"; ","; " "; "["; "]"; "."]%char.

Definition isletter (c : ascii) : bool :=
  let n := nat_of_ascii c in
  (Nat.leb 65 n && Nat.leb n 90) || (Nat.leb 97 n && Nat.leb n 122).

(** The parameter text up to the closing parenthesis, and what follows it. *)
Fixpoint scan_sig (s : string) : option (string * string) :=
  match s with
  | EmptyString => None
  | String c s' =>
      if Ascii.eqb c ")" then Some (EmptyString, s')
      else if sig_char c then
        match scan_sig s' with
        | Some (inside, rest) => Some (String c inside, rest)
        | None => None
        end
      else None
  end.

(** The text before the first line break. *)
Fixpoint first_line (s : string) : string :=
  match s with
  | EmptyString => EmptyString
  | String c s' => if Nat.eqb (nat_of_ascii c) 10 then EmptyString else String c (first_line s')
  end.

(** Modelled from the spec: [mypy.stubutil.infer_sig_from_docstring], whose
    source is not at hand.  The documentation text, if present, is matched
    against [name(param, param, ...) -> ReturnType] and against the bare-call
    form [name(param, param, ...)], for which the return type is [Any]; it
    yields the parenthesised parameter text and the return type. *)
Definition stubutil_infer_sig_from_docstring (docstr : option string) (name : string)
    : option (string * string) :=
  match docstr with
  | None => None
  | Some d =>
      let d := PyStr.lstrip d in
      if PyStr.startswith d (name +++ "(") then
        match scan_sig (PyStr.drop (String.length name + 1) d) with
        | Some (inside, rest) =>
            let sig := "(" +++ inside +++ ")" in
            let ret := PyStr.drop 4 rest in
            if PyStr.startswith rest " -> "
               && match ret with String c _ => isletter c | EmptyString => false end
            then Some (sig, PyStr.rstrip (first_line ret))
            else Some (sig, "Any")
        | None => None
        end
      else None
  end.

(** Modelled from the spec: [mypy.stubutil.infer_prop_type_from_docstring],
    whose source is not at hand and whose parsing the spec leaves open; this
    stand-in never infers a type, which is what any parser does on a value
    without documentation. *)
Definition stubutil_infer_prop_type_from_docstring (docstr : option string)
    : option string := None.

(** One enumeration order of [set(l)]: first occurrences, last one first. *)
Definition set_of_list (l : list string) : list string :=
  nodup string_dec l.

(** Another one: the reverse order. *)
Definition set_of_list_rev (l : list string) : list string :=
  rev (nodup string_dec l).

(** ** Sample values *)

(** A builtin function such as [ord]. *)
Definition builtin_value (doc : option string) : PyValue :=
  mkValue builtin_function_or_method true false false false false doc false false
    false false.

(** A method implemented in C such as [str.index]. *)
Definition method_value (doc : option string) : PyValue :=
  mkValue method_descriptor false true false false false doc false false false false.

(** An operator slot implemented in C such as [str.__add__]. *)
Definition slot_value (doc : option string) : PyValue :=
  mkValue wrapper_descriptor false true false false false doc false false false false.

(** A class whose metaclass is [type]. *)
Definition class_value : PyValue :=
  mkValue type_type false false false true false None false false false false.

(** A string constant. *)
Definition str_value : PyValue :=
  mkValue (other_type "str") false false false false false (Some "str(object)") false false
    false false.

Definition object_ref : ClassRef := mkClassRef object_id "object" "builtins" [object_id].

(** [other.Base], a class of a foreign module. *)
Definition foreign_base_ref : ClassRef := mkClassRef 2 "Base" "other" [2; object_id].

(** [mod.K(other.Base)] *)
Definition derived_ref : ClassRef := mkClassRef 1 "K" "mod" [1; 2; object_id].

(** The chain [mod.Leaf(other.Mid)], [other.Mid(other.Root)], [other.Root]. *)
Definition root_ref : ClassRef := mkClassRef 5 "Root" "other" [5; object_id].
Definition mid_ref : ClassRef := mkClassRef 4 "Mid" "other" [4; 5; object_id].
Definition leaf_ref : ClassRef := mkClassRef 3 "Leaf" "mod" [3; 4; 5; object_id].

(** A module with one undocumented function and one empty class that
    derives from a class of another module. *)
Definition module_with_foreign_base : ModuleType :=
  mkModule "mod"
    [("K", mkObj class_value [] [derived_ref; foreign_base_ref; object_ref]);
     ("f", mkObj (builtin_value None) [] [])].



(** The class [mod.Leaf] of the chain, with no member. *)
Definition leaf_class : PyObj :=
  mkObj class_value [] [leaf_ref; mid_ref; root_ref; object_ref].

(** A class with a single member, a builtin callable (not a [classmethod]
    object) called [create]. *)
Definition class_with_builtin_member : PyObj :=
  mkObj class_value [("create", builtin_value None)]
    [mkClassRef 1 "K" "mod" [1; object_id]; object_ref].

(** A module whose three symbols all have dunder names: a builtin function,
    a class and a string constant. *)
Definition module_with_dunders : ModuleType :=
  mkModule "mod"
    [("__version__", mkObj str_value [] []);
     ("__helper__", mkObj (builtin_value None) [] []);
     ("__Hidden__", mkObj class_value []
                      [mkClassRef 1 "__Hidden__" "mod" [1; object_id]; object_ref])].

(** The same three values under ordinary names. *)
Definition module_without_dunders : ModuleType :=
  mkModule "mod"
    [("version", mkObj str_value [] []);
     ("helper", mkObj (builtin_value None) [] []);
     ("Hidden", mkObj class_value []
                  [mkClassRef 1 "Hidden" "mod" [1; object_id]; object_ref])].

(** A host on which every collaborator succeeds and whose only importable
    module is [m]; [native] says whether [m] is a C module. *)
Definition sample_host (m : ModuleType) (native : bool) : Host :=
  mkHost (fun name => if String.eqb name (module_name m) then Some m else None)
         (fun _ => native)
         (fun path => match PyStr.rindex "/" path with
                      | Some i => PyStr.take i path
                      | None => ""
                      end)
         (fun _ => false) (fun _ => true) (fun _ => true)
         (fun name => ["# Stubs for " +++ name])%list.

(** ** Snapshots that differ only in enumeration order *)

(** The keys of a mapping are pairwise distinct. *)
Definition unique_keys {V : Type} (d : list (string * V)) : Prop :=
  NoDup (map fst d).

(** The same value, its [__dict__] possibly enumerated in another order. *)
Definition same_value (o1 o2 : PyObj) : Prop :=
  shape o1 = shape o2 /\ obj_mro o1 = obj_mro o2
  /\ Permutation (obj_dict o1) (obj_dict o2).

Definition same_item (a b : string * PyObj) : Prop :=
  fst a = fst b /\ same_value (snd a) (snd b).

(** Two enumerations of one module. *)
Definition same_snapshot (m1 m2 : ModuleType) : Prop :=
  module_name m1 = module_name m2
  /\ exists d, Permutation (module_dict m1) d /\ Forall2 same_item d (module_dict m2).

Definition snapshot_ok (m : ModuleType) : Prop :=
  unique_keys (module_dict m)
  /\ Forall (fun item => unique_keys (obj_dict (snd item))) (module_dict m).

(** [f l] enumerates the elements of [l], each once, in some order. *)
Definition set_enumeration (f : list string -> list string) : Prop :=
  forall l, NoDup (f l) /\ forall x, In x (f l) <-> In x l.

(** Two hosts that agree on everything a run asks of them. *)
Definition same_host (h1 h2 : Host) (name : string) : Prop :=
  dirname h1 = dirname h2 /\ isdir h1 = isdir h2 /\ makedirs h1 = makedirs h2
  /\ open_w h1 = open_w h2 /\ write_header h1 = write_header h2
  /\ match import_module h1 name, import_module h2 name with
     | Some m1, Some m2 =>
         snapshot_ok m1 /\ same_snapshot m1 m2
         /\ is_c_module h1 m1 = is_c_module h2 m2
     | None, None => True
     | _, _ => False
     end.

(** Events on the output file itself, as opposed to its directory. *)
Definition touches_output (e : Event) : bool :=
  match e with
  | EvMakedirs _ => false
  | EvOpen _ | EvWrite _ | EvClose => true
  end.

(** One module enumerated in two orders, with a class whose members are
    enumerated in two orders as well. *)
Definition module_one_order : ModuleType :=
  mkModule "mod"
    [("K", mkObj class_value
             [("size", method_value None); ("__eq__", slot_value None)]
             [derived_ref; foreign_base_ref; object_ref]);
     ("f", mkObj (builtin_value None) [] [])].

Definition module_other_order : ModuleType :=
  mkModule "mod"
    [("f", mkObj (builtin_value None) [] []);
     ("K", mkObj class_value
             [("__eq__", slot_value None); ("size", method_value None)]
             [derived_ref; foreign_base_ref; object_ref])].

(** Items whose name is not of the form [__x__]. *)
Definition not_dunder (item : string * PyObj) : bool := negb (is_dunder (fst item)).

(** Is a list empty? *)
Definition is_nil {A : Type} (l : list A) : bool :=
  match l with [] => true | _ :: _ => false end.

(** The classes of [l] taken pairwise in list order: no earlier one is a
    subclass of a later one. *)
Definition no_earlier_subclass (l : list ClassRef) : Prop :=
  ForallOrdPairs (fun b1 b2 => issubclass b1 b2 = false) l.

(** A linearization lists a class before its ancestors: no later entry is a
    subclass of an earlier one. *)
Definition no_later_subclass (l : list ClassRef) : Prop :=
  ForallOrdPairs (fun b1 b2 => issubclass b2 b1 = false) l.

(** No member of [l] is a subclass of another one. *)
Definition antichain (l : list ClassRef) : Prop :=
  ForallOrdPairs (fun b1 b2 => issubclass b1 b2 = false /\ issubclass b2 b1 = false) l.

(** ** Predicates of the further properties *)

(** A line of the form [import ...]. *)
Definition import_line (line : string) : bool := PyStr.startswith line "import ".

(** [imports'] is [imports] followed by some [import ...] lines. *)
Definition grows (imports imports' : list string) : Prop :=
  exists added, imports' = imports ++ added
                /\ Forall (fun line => import_line line = true) added.


(** Lines 51-53: the declared type of a module-level value. *)
Definition variable_type (obj : PyValue) : string :=
  if PyStr.mem (type_name (py_type obj)) ["int"; "str"; "bytes"; "float"; "bool"]
  then type_name (py_type obj) else "Any".

(** Items that are neither dunder-named, nor C functions, nor types, nor
    modules. *)
Definition is_module_variable (item : string * PyObj) : bool :=
  negb (is_dunder (fst item)) && negb (is_c_function (shape (snd item)))
  && negb (is_c_type (shape (snd item))) && negb (ismodule (shape (snd item))).


(** ** The lines of a class block, member by member *)

(** One rendered parameter (lines 159-166), apart from the import it may
    record. *)
Definition rendered_arg (module : ModuleType) (arg : string) : string :=
  match PyStr.split1 ":" arg with
  | (a, None) => PyStr.strip a
  | (a, Some t) =>
      PyStr.strip a +++ ": " +++ fst (strip_or_import (PyStr.strip t) module [])
  end.

(** The parameters of a stub with receiver [v] whose signature text,
    parentheses removed, is [sig]: the bare receiver first; when the text
    opens with the receiver, bare or annotated, the parameters after it;
    otherwise all the parameters of the text; nothing more for an empty
    text. *)
Definition receiver_params (module : ModuleType) (v sig : string) : list string :=
  if PyStr.nonempty sig then
    let groups := PyStr.split1 "," sig in
    if String.eqb (fst groups) v || PyStr.startswith (fst groups) (v +++ ":") then
      v :: match snd groups with
           | Some rest => map (rendered_arg module) (PyStr.split "," rest)
           | None => []
           end
    else v :: map (rendered_arg module) (PyStr.split "," sig)
  else [v].

(** The line of a stub with receiver [v]. *)
Definition method_line (infer : option string -> string -> option (string * string))
    (module : ModuleType) (name : string) (obj : PyValue) (v : string) (sigs : Dict)
    (class_name : option string) (class_sigs : Dict) : string :=
  let cs := choose_sig infer name obj sigs class_name class_sigs in
  "def " +++ name +++ "("
    +++ String.concat ", " (receiver_params module v (PyStr.slice 1 1 (fst cs)))
    +++ ") -> " +++ fst (strip_or_import (snd cs) module []) +++ ": ...".

(** The method lines of one member: none unless it is method-like and not
    on the skip list; then the marker if it is classified as a class method,
    and its line, under the name [__init__] for [__new__], except for
    [__new__] in a class that has [__init__]. *)
Definition member_methods (infer : option string -> string -> option (string * string))
    (module : ModuleType) (class_name : string) (obj_dict : list (string * PyValue))
    (sigs class_sigs : Dict) (item : string * PyValue) : list string :=
  if (is_c_method (snd item) || is_c_classmethod (snd item))
     && negb (is_skipped_attribute (fst item)) then
    (if is_c_classmethod (snd item) then ["@classmethod"] else [])
      ++ (if String.eqb (fst item) "__new__" && PyStr.mem "__init__" (map fst obj_dict)
          then []
          else [method_line infer module
                  (if String.eqb (fst item) "__new__" then "__init__" else fst item)
                  (snd item) (if is_c_classmethod (snd item) then "cls" else "self")
                  sigs (Some class_name) class_sigs])
  else [].


(** The displayed name of a base class. *)
Definition base_name (module : ModuleType) (base : ClassRef) : string :=
  fst (strip_or_import (cls_module base +++ "." +++ cls_name base) module []).

(** [l1] is [l2] with some elements left out, the others in their order. *)
Inductive Subseq {A : Type} : list A -> list A -> Prop :=
| Subseq_nil : Subseq [] []
| Subseq_skip (x : A) (l1 l2 : list A) : Subseq l1 l2 -> Subseq l1 (x :: l2)
| Subseq_keep (x : A) (l1 l2 : list A) : Subseq l1 l2 -> Subseq (x :: l1) (x :: l2).

(** No blank line follows a blank line, or the start when [prev] is false,
    and the last line is not blank. *)
Fixpoint tidy_from (prev : bool) (lines : list string) : bool :=
  match lines with
  | [] => prev
  | line :: rest =>
      if PyStr.nonempty line then tidy_from true rest
      else prev && tidy_from false rest
  end.

(** The lines neither begin nor end with a blank line, and have no two blank
    lines in a row. *)
Definition tidy (lines : list string) : bool :=
  match lines with [] => true | _ :: _ => tidy_from false lines end.

(** * Properties *)

(** ** Strings *)

Lemma startswith_append (p r : string) : PyStr.startswith (p +++ r) p = true.
Proof.
  induction p as [|c p IH]; simpl; [reflexivity|].
  now rewrite Ascii.eqb_refl, IH.
Qed.

Lemma drop_append (p r : string) (n : nat) :
  PyStr.drop (String.length p + n) (p +++ r) = PyStr.drop n r.
Proof. induction p as [|c p IH]; simpl; auto. Qed.

Lemma take_append (p r : string) : PyStr.take (String.length p) (p +++ r) = p.
Proof. induction p as [|c p IH]; simpl; [now destruct r | now rewrite IH]. Qed.

Lemma contains_append (c : ascii) (p r : string) :
  PyStr.contains c (p +++ r) = PyStr.contains c p || PyStr.contains c r.
Proof.
  induction p as [|d p IH]; simpl; [reflexivity|].
  now rewrite IH, orb_assoc.
Qed.

Lemma rindex_absent (c : ascii) (s : string) :
  PyStr.contains c s = false -> PyStr.rindex c s = None.
Proof.
  induction s as [|d s IH]; simpl; [reflexivity|].
  intros H. apply orb_false_iff in H as [Hd Hs].
  now rewrite (IH Hs), Hd.
Qed.

Lemma rindex_last (c : ascii) (p r : string) :
  PyStr.contains c r = false ->
  PyStr.rindex c (p +++ String c r) = Some (String.length p).
Proof.
  intros Hr. induction p as [|d p IH]; simpl.
  - now rewrite (rindex_absent _ _ Hr), Ascii.eqb_refl.
  - now rewrite IH.
Qed.

(** ** The type name resolver *)

(** [strip_or_import] on a type name, by cases.  (1) A name that starts
    with the owning module's name loses that prefix together with the
    character that follows it, so [module.X] becomes [X], and nothing is added
    to the import list.  (2) Any other name without a dot is returned
    unchanged, with no import.  (3) Any other name [pre.last], where [last]
    has no dot, becomes [last] with no import when [pre] is [builtins]; for any
    other [pre] the line [import pre] is appended to the import list and the
    full dotted name is kept. *)
Theorem strip_or_import_policy (module : ModuleType) (imports : list string) :
  (forall rest,
      strip_or_import (module_name module +++ rest) module imports
      = (PyStr.drop 1 rest, imports)
      /\ strip_or_import (module_name module +++ "." +++ rest) module imports
         = (rest, imports))
  /\ (forall typ,
         PyStr.startswith typ (module_name module) = false ->
         PyStr.contains "." typ = false ->
         strip_or_import typ module imports = (typ, imports))
  /\ (forall pre last,
         PyStr.startswith (pre +++ "." +++ last) (module_name module) = false ->
         PyStr.contains "." last = false ->
         strip_or_import (pre +++ "." +++ last) module imports
         = if String.eqb pre "builtins" then (last, imports)
           else (pre +++ "." +++ last, imports ++ ["import " +++ pre])).
Proof.
  split; [|split].
  - intros rest. unfold strip_or_import.
    rewrite !startswith_append, !drop_append. now split.
  - intros typ Hp Hd. unfold strip_or_import. now rewrite Hp, Hd.
  - intros pre last Hp Hd. unfold strip_or_import. rewrite Hp.
    rewrite contains_append. simpl PyStr.contains at 2.
    rewrite orb_true_r.
    change (pre +++ "." +++ last) with (pre +++ String "." last).
    rewrite (rindex_last _ _ _ Hd), take_append.
    destruct (String.eqb_spec pre "builtins") as [->|_]; reflexivity.
Qed.

Lemma strip_or_import_policy_witness :
  strip_or_import "mod.Foo" (mkModule "mod" []) [] = ("Foo", [])
  /\ strip_or_import "int" (mkModule "mod" []) [] = ("int", [])
  /\ strip_or_import "builtins.int" (mkModule "mod" []) [] = ("int", [])
  /\ strip_or_import "a.b.C" (mkModule "mod" []) ["import x"]
     = ("a.b.C", ["import x"; "import a.b"]).
Proof.
  destruct (strip_or_import_policy (mkModule "mod" []) []) as (H1 & H2 & H3).
  destruct (strip_or_import_policy (mkModule "mod" []) ["import x"]) as (_ & _ & H4).
  split; [|split; [|split]].
  - exact (proj2 (H1 "Foo")).
  - apply H2; reflexivity.
  - apply (H3 "builtins" "int"); reflexivity.
  - apply (H4 "a.b" "C"); reflexivity.
Defined.

(** C5.  The first case of the resolver tests [typ.startswith(module.__name__)]
    and then cuts [len(module.__name__) + 1] characters: the test does not
    look at the character after the module's name, the cut removes it.  In
    the module [mod] the name [model.Foo] of a type of another module passes
    the test, so it is neither kept nor imported as [model.Foo], nor is just
    the prefix [mod] removed (that would leave [el.Foo]): the resolver returns
    [l.Foo] and records no import.  Only when the character after the
    prefix is the dot does the first case give the local name, as for
    [mod.Foo]; in a module called [pkg] the same [model.Foo] is kept in full
    and [import model] is recorded.  In general a name [module.__name__ + rest]
    loses the prefix and the first character of [rest], whatever it is. *)
Theorem strip_or_import_cuts_past_prefix :
  PyStr.startswith "model.Foo" "mod" = true
  /\ strip_or_import "model.Foo" (mkModule "mod" []) [] = ("l.Foo", [])
  /\ PyStr.drop (String.length "mod") "model.Foo" = "el.Foo"
  /\ strip_or_import "mod.Foo" (mkModule "mod" []) [] = ("Foo", [])
  /\ strip_or_import "model.Foo" (mkModule "pkg" []) []
     = ("model.Foo", ["import model"])
  /\ (forall module rest imports,
        strip_or_import (module_name module +++ rest) module imports
        = (PyStr.drop 1 rest, imports)).
Proof.
  split; [reflexivity|]. split; [reflexivity|]. split; [reflexivity|].
  split; [reflexivity|]. split; [reflexivity|].
  intros module rest imports. unfold strip_or_import.
  now rewrite startswith_append, drop_append.
Qed.

Lemma append_assoc (a b c : string) : (a +++ b) +++ c = a +++ b +++ c.
Proof. induction a as [|x a IH]; simpl; [reflexivity | now rewrite IH]. Qed.

Lemma strip_or_import_keeps_imports (typ : string) (module : ModuleType)
    (imports : list string) :
  PyStr.contains "." typ = false ->
  snd (strip_or_import typ module imports) = imports.
Proof.
  intros H. unfold strip_or_import. rewrite H.
  now destruct (PyStr.startswith typ (module_name module)).
Qed.

Lemma strip_or_import_not_prefixed (typ : string) (module : ModuleType)
    (imports : list string) :
  PyStr.startswith typ (module_name module) = false ->
  PyStr.contains "." typ = false ->
  fst (strip_or_import typ module imports) = typ.
Proof. intros H1 H2. unfold strip_or_import. now rewrite H1, H2. Qed.

(** ** Function stubs *)

Section FunctionStubs.

Variable infer_sig_from_docstring : option string -> string -> option (string * string).

(** [generate_c_function_stub] in terms of its four stages. *)
Lemma generate_c_function_stub_eq module name obj output imports self_var sigs
    class_name class_sigs :
  generate_c_function_stub infer_sig_from_docstring module name obj output imports
    self_var sigs class_name class_sigs
  = let cs := choose_sig infer_sig_from_docstring name obj sigs class_name class_sigs in
    let ps := place_self self_var (PyStr.slice 1 1 (fst cs)) in
    let rs := render_sig module (snd ps) imports in
    let rt := strip_or_import (snd cs) module (snd rs) in
    (output ++ ["def " +++ name +++ "(" +++ fst ps +++ fst rs +++ ") -> "
                  +++ fst rt +++ ": ..."], snd rt).
Proof.
  unfold generate_c_function_stub.
  destruct (choose_sig _ _ _ _ _ _) as [sig ret]; simpl.
  destruct (place_self _ _) as [self_arg sig']; simpl.
  destruct (render_sig _ _ _) as [sig'' imports']; simpl.
  now destruct (strip_or_import _ _ _).
Qed.

(** Every call appends exactly one line, which opens with [def]. *)
Lemma generate_c_function_stub_line module name obj output imports self_var sigs
    class_name class_sigs :
  exists rest,
    fst (generate_c_function_stub infer_sig_from_docstring module name obj output
           imports self_var sigs class_name class_sigs)
    = output ++ ["def " +++ name +++ "(" +++ rest].
Proof. rewrite generate_c_function_stub_eq. simpl. eauto. Qed.

(** C1 (as amended).  For a class member rendered under the name
    [__init__], the return type is [None] whenever the signature is not
    read from the documentation string: when the per-class override
    applies, or when the docstring yields no signature.  (The module's
    name is assumed not to be a prefix of the text [None], which the
    resolver would otherwise cut.) *)
Theorem init_returns_none_by_default module obj output imports self_var sigs
    (c : string) class_sigs :
  PyStr.nonempty c = true ->
  (dict_mem "__init__" sigs = false /\ dict_mem c class_sigs = true)
  \/ infer_sig_from_docstring (py_doc obj) "__init__" = None ->
  PyStr.startswith "None" (module_name module) = false ->
  snd (choose_sig infer_sig_from_docstring "__init__" obj sigs (Some c) class_sigs)
  = "None"
  /\ exists params imports',
      generate_c_function_stub infer_sig_from_docstring module "__init__" obj
        output imports self_var sigs (Some c) class_sigs
      = (output ++ ["def __init__(" +++ params +++ ") -> None: ..."], imports').
Proof.
  intros Hc Hcase Hmod.
  assert (Hret : snd (choose_sig infer_sig_from_docstring "__init__" obj sigs
                        (Some c) class_sigs) = "None").
  { unfold choose_sig. simpl PyStr.truthy. rewrite Hc. simpl.
    unfold dict_mem in *.
    destruct (sigs "__init__") eqn:Hs; simpl.
    - destruct Hcase as [[Hx _]|Hi]; [discriminate|]. now rewrite Hi.
    - destruct (class_sigs c) eqn:Hcs; [reflexivity|].
      destruct Hcase as [[_ Hx]|Hi]; [discriminate|]. now rewrite Hi. }
  split; [exact Hret|].
  rewrite generate_c_function_stub_eq. cbv zeta. rewrite Hret.
  rewrite (strip_or_import_not_prefixed "None" module _ Hmod eq_refl).
  eexists (_ +++ _), _. simpl. now rewrite append_assoc.
Qed.

(** C8 (as amended).  For a class member whose name is one of the 22
    operator names of the table ([__eq__], [__ne__], ..., [__rpow__]), with
    no signature in its docstring and no override entry, the inferred
    signature is [(other)]: one parameter, named [other], after the
    receiver. *)
Theorem operator_signature_is_other module (op : string) obj output imports sigs
    (c : string) class_sigs :
  In op other_operator_names ->
  PyStr.nonempty c = true ->
  infer_sig_from_docstring (py_doc obj) ("__" +++ op +++ "__") = None ->
  dict_mem ("__" +++ op +++ "__") sigs = false ->
  infer_method_sig ("__" +++ op +++ "__") = "(other)"
  /\ PyStr.split "," (PyStr.slice 1 1 "(other)") = ["other"]
  /\ choose_sig infer_sig_from_docstring ("__" +++ op +++ "__") obj sigs (Some c)
       class_sigs = ("(other)", "Any")
  /\ forall self_var, self_var = "self" \/ self_var = "cls" ->
       generate_c_function_stub infer_sig_from_docstring module ("__" +++ op +++ "__")
         obj output imports (Some self_var) sigs (Some c) class_sigs
       = (output ++ ["def __" +++ op +++ "__(" +++ self_var +++ ", other) -> "
                       +++ fst (strip_or_import "Any" module imports) +++ ": ..."],
          imports).
Proof.
  intros Hop Hc Hi Hs.
  assert (Hm : infer_method_sig ("__" +++ op +++ "__") = "(other)").
  { simpl in Hop.
    repeat (destruct Hop as [<-|Hop]; [reflexivity|]). destruct Hop. }
  assert (Hn : String.eqb ("__" +++ op +++ "__") "__init__" = false
               /\ PyStr.mem ("__" +++ op +++ "__") ["__new__"; "__init__"] = false).
  { simpl in Hop.
    repeat (destruct Hop as [<-|Hop]; [split; reflexivity|]). destruct Hop. }
  destruct Hn as [Hn1 Hn2].
  assert (Hcs : choose_sig infer_sig_from_docstring ("__" +++ op +++ "__") obj sigs
                  (Some c) class_sigs = ("(other)", "Any")).
  { unfold choose_sig. rewrite Hn1, Hn2, Hi, Hs, Hm. simpl. now rewrite Hc. }
  split; [exact Hm|]. split; [reflexivity|]. split; [exact Hcs|].
  intros self_var Hself.
  rewrite generate_c_function_stub_eq. cbv zeta. rewrite Hcs.
  assert (Hps : place_self (Some self_var) (PyStr.slice 1 1 (fst ("(other)", "Any")))
                = (self_var +++ ", ", "other")).
  { destruct Hself as [->| ->]; reflexivity. }
  rewrite Hps.
  change (render_sig module (snd (self_var +++ ", ", "other")) imports)
    with ("other", imports).
  simpl fst; simpl snd.
  rewrite (strip_or_import_keeps_imports "Any" module imports eq_refl).
  f_equal. f_equal. f_equal. simpl. f_equal. f_equal.
  rewrite !append_assoc. reflexivity.
Qed.

End FunctionStubs.

Lemma init_returns_none_by_default_witness :
  stubutil_infer_sig_from_docstring (py_doc (slot_value None)) "__init__" = None
  /\ snd (choose_sig stubutil_infer_sig_from_docstring "__init__" (slot_value None)
            empty_dict (Some "K") empty_dict) = "None"
  /\ exists params imports',
      generate_c_function_stub stubutil_infer_sig_from_docstring (mkModule "mod" [])
        "__init__" (slot_value None) [] [] (Some "self") empty_dict (Some "K") empty_dict
      = ([] ++ ["def __init__(" +++ params +++ ") -> None: ..."], imports').
Proof.
  split; [reflexivity|].
  apply (init_returns_none_by_default stubutil_infer_sig_from_docstring
           (mkModule "mod" []) (slot_value None) [] [] (Some "self") empty_dict "K"
           empty_dict);
    [reflexivity | right; reflexivity | reflexivity].
Defined.

(** C1, the claim as stated, fails: an [__init__] member of class [K] whose
    docstring carries a signature takes its return type from the docstring,
    [Any] when the docstring has no arrow and the annotated type when it has
    one. *)
Lemma init_return_type_follows_docstring :
  generate_c_function_stub stubutil_infer_sig_from_docstring (mkModule "mod" [])
    "__init__" (slot_value (Some "__init__(self, x)")) [] [] (Some "self")
    empty_dict (Some "K") empty_dict
  = (["def __init__(self, x) -> Any: ..."], [])
  /\ generate_c_function_stub stubutil_infer_sig_from_docstring (mkModule "mod" [])
       "__init__" (slot_value (Some "__init__(self, x: int) -> bool")) [] []
       (Some "self") empty_dict (Some "K") empty_dict
     = (["def __init__(self, x: int) -> bool: ..."], []).
Proof. split; reflexivity. Qed.

Lemma operator_signature_is_other_witness :
  In "eq" other_operator_names
  /\ infer_method_sig "__eq__" = "(other)"
  /\ generate_c_function_stub stubutil_infer_sig_from_docstring (mkModule "mod" [])
       "__eq__" (slot_value None) [] [] (Some "self") empty_dict (Some "K") empty_dict
     = (["def __eq__(self, other) -> Any: ..."], []).
Proof.
  split; [simpl; auto|].
  destruct (operator_signature_is_other stubutil_infer_sig_from_docstring
              (mkModule "mod" []) "eq" (slot_value None) [] [] empty_dict "K" empty_dict)
    as (H1 & _ & _ & H2);
    [simpl; auto | reflexivity | reflexivity | reflexivity |].
  split; [exact H1|].
  exact (H2 "self" (or_introl eq_refl)).
Defined.

(** C8, the claim as stated, fails: [__and__], [__or__] and [__lshift__] are
    binary-operator names, and an undocumented member under one of them gets
    the generic signature, not [(other)]. *)
Lemma bitwise_operator_is_generic :
  is_dunder "__and__" = true
  /\ infer_method_sig "__and__" = "(*args, **kwargs)"
  /\ infer_method_sig "__or__" = "(*args, **kwargs)"
  /\ infer_method_sig "__lshift__" = "(*args, **kwargs)"
  /\ generate_c_function_stub stubutil_infer_sig_from_docstring (mkModule "mod" [])
       "__and__" (slot_value None) [] [] (Some "self") empty_dict (Some "K") empty_dict
     = (["def __and__(self, *args, **kwargs) -> Any: ..."], []).
Proof. repeat split. Qed.

(** ** The typing import *)

Lemma startswith_split (s p : string) :
  PyStr.startswith s p = true -> s = p +++ PyStr.drop (String.length p) s.
Proof.
  revert s. induction p as [|c p IH]; intros s; simpl; [reflexivity|].
  destruct s as [|d s]; [discriminate|]. intros H.
  apply andb_true_iff in H as [Hd Hs]. apply Ascii.eqb_eq in Hd. subst d.
  now rewrite <- (IH s Hs).
Qed.

(** [search_from] finds exactly the occurrences of the name that have a word
    boundary on either side. *)
Lemma search_from_spec (name : string) (prev : option ascii) (s : string) :
  search_from name prev s = true
  <-> exists pre post,
        s = pre +++ name +++ post
        /\ word_boundary (last_char prev pre) (first_char (name +++ post)) = true
        /\ word_boundary (last_char (last_char prev pre) name) (first_char post) = true.
Proof.
  split.
  - revert prev. induction s as [|c s IH]; intros prev H.
    + simpl in H. rewrite orb_false_r in H. unfold word_at in H.
      apply andb_true_iff in H as [H H3]. apply andb_true_iff in H as [H1 H2].
      exists "", (PyStr.drop (String.length name) ""). simpl append.
      rewrite <- (startswith_split _ _ H1). auto.
    + simpl in H. apply orb_true_iff in H as [H|H].
      * unfold word_at in H.
        apply andb_true_iff in H as [H H3]. apply andb_true_iff in H as [H1 H2].
        exists "", (PyStr.drop (String.length name) (String c s)). simpl append.
        rewrite <- (startswith_split _ _ H1). auto.
      * destruct (IH _ H) as (pre & post & -> & B1 & B2).
        exists (String c pre), post. auto.
  - intros (pre & post & -> & B1 & B2). revert prev B1 B2.
    induction pre as [|c pre IH]; intros prev B1 B2.
    + simpl in *.
      assert (Hw : word_at name prev (name +++ post) = true).
      { unfold word_at. rewrite startswith_append, B1.
        rewrite <- (Nat.add_0_r (String.length name)), drop_append. simpl.
        exact B2. }
      destruct (name +++ post); simpl; now rewrite Hw.
    + simpl. rewrite (IH (Some c) B1 B2). apply orb_true_r.
Qed.

(** For the six marker names, which begin and end with a letter, a match is
    an occurrence that is neither preceded nor followed by a word character. *)
Lemma marker_search_spec (m line : string) :
  In m typing_names ->
  (re_search_word m line = true
   <-> exists pre post,
         line = pre +++ m +++ post
         /\ not_word (last_char None pre) = true
         /\ not_word (first_char post) = true).
Proof.
  intros Hm. unfold re_search_word. rewrite search_from_spec.
  assert (H : forall p post,
             word_boundary p (first_char (m +++ post)) = not_word p
             /\ word_boundary (last_char p m) (first_char post)
                = not_word (first_char post)).
  { simpl in Hm.
    repeat (destruct Hm as [<-|Hm];
            [intros [p|] [|c post]; simpl; unfold word_boundary; simpl;
             split; try reflexivity; try (now destruct (isword p));
             now destruct (isword c)|]).
    destruct Hm. }
  split; intros (pre & post & Hl & B1 & B2); exists pre, post;
    destruct (H (last_char None pre) post) as [E1 E2];
    (split; [exact Hl|]); rewrite ?E1, ?E2 in *; auto.
Qed.

(** C3 (as amended).  [used] are the markers that occur as a whole word in
    some line, that is, neither preceded nor followed by a word character,
    listed in the order of the source's table (Any, Union, Tuple, Optional,
    List, Dict).  If there is one, the output is prefixed with one import
    line naming exactly [used], in that order, and a blank line; if there is
    none, the output is returned as it is. *)
Theorem add_typing_import_spec (output : list string) :
  let used := filter (fun name => existsb (re_search_word name) output) typing_names in
  (forall m, In m used
             <-> In m typing_names
                 /\ exists line pre post,
                      In line output
                      /\ line = pre +++ m +++ post
                      /\ not_word (last_char None pre) = true
                      /\ not_word (first_char post) = true)
  /\ (used = [] -> add_typing_import output = output)
  /\ (used <> [] ->
      add_typing_import output
      = ("from typing import " +++ String.concat ", " used) :: "" :: output).
Proof.
  intros used. split; [|split].
  - intros m. unfold used. rewrite filter_In, existsb_exists. split.
    + intros [Hm (line & Hin & Hs)]. split; [exact Hm|].
      apply (marker_search_spec m line Hm) in Hs as (pre & post & H).
      exists line, pre, post. tauto.
    + intros [Hm (line & pre & post & Hin & H)]. split; [exact Hm|].
      exists line. split; [exact Hin|].
      apply (marker_search_spec m line Hm). eauto.
  - intros H. unfold add_typing_import. fold used. now rewrite H.
  - intros H. unfold add_typing_import. fold used.
    destruct used; [contradiction|reflexivity].
Qed.

Lemma add_typing_import_spec_witness :
  add_typing_import ["x: Any"] = ["from typing import Any"; ""; "x: Any"]
  /\ add_typing_import ["x: int"; "AnyThing: str"] = ["x: int"; "AnyThing: str"].
Proof.
  split.
  - apply (proj2 (proj2 (add_typing_import_spec ["x: Any"]))). discriminate.
  - apply (proj1 (proj2 (add_typing_import_spec ["x: int"; "AnyThing: str"]))).
    reflexivity.
Defined.

(** C3, the claim as stated, fails: with [List] and [Dict] both in use the
    import line names [List] before [Dict], which is not alphabetical. *)
Lemma typing_import_not_alphabetical :
  add_typing_import ["def f(a: Dict) -> List: ..."]
  = ["from typing import List, Dict"; ""; "def f(a: Dict) -> List: ..."]
  /\ PyStr.ltb "Dict" "List" = true
  /\ sorted PyStr.ltb ["List"; "Dict"] = ["Dict"; "List"].
Proof. repeat split. Qed.

(** ** Assembly of the sections *)

Lemma append_type_lines_extend (types output : list string) :
  exists classes, fold_left append_type_line types output = output ++ classes.
Proof.
  revert output. induction types as [|line types IH]; intros output; simpl.
  - exists []. now rewrite app_nil_r.
  - destruct (IH (append_type_line output line)) as [classes Hc]. rewrite Hc.
    unfold append_type_line.
    destruct (PyStr.startswith line "class" && PyStr.nonempty (last output ""));
      rewrite <- app_assoc; eauto.
Qed.



(** ** Minimal bases *)

Lemma FOP_snoc {A : Type} (R : A -> A -> Prop) (l : list A) (x : A) :
  ForallOrdPairs R l -> Forall (fun y => R y x) l -> ForallOrdPairs R (l ++ [x]).
Proof.
  induction 1 as [|a l Ha Hl IH]; intros Hx; simpl.
  - constructor; constructor.
  - inversion Hx; subst. constructor.
    + apply Forall_app. split; [assumption | now constructor].
    + now apply IH.
Qed.

(** What the loop over the candidate bases guarantees, whatever the list it
    starts from. *)
Lemma keep_base_fold (candidates acc : list ClassRef) :
  (exists added, fold_left keep_base candidates acc = acc ++ added
                 /\ incl added candidates)
  /\ (forall base, In base candidates ->
        exists b, In b (fold_left keep_base candidates acc)
                  /\ (b = base \/ issubclass b base = true))
  /\ (no_earlier_subclass acc ->
      no_earlier_subclass (fold_left keep_base candidates acc)).
Proof.
  revert acc. induction candidates as [|c candidates IH]; intros acc; simpl.
  - split; [|split].
    + exists []. split; [now rewrite app_nil_r | apply incl_refl].
    + intros base [].
    + auto.
  - destruct (IH (keep_base acc c)) as ((added & Hadd & Hincl) & Hcover & Hord).
    split; [|split].
    + rewrite Hadd. unfold keep_base.
      destruct (existsb (fun b => issubclass b c) acc).
      * exists added. split; [reflexivity | now apply incl_tl].
      * exists (c :: added). rewrite <- app_assoc. split; [reflexivity|].
        apply incl_cons; [now left | now apply incl_tl].
    + intros base [<-|Hin]; [|now apply Hcover].
      rewrite Hadd. unfold keep_base.
      destruct (existsb (fun b => issubclass b c) acc) eqn:E.
      * apply existsb_exists in E as (b & Hb & Hsub).
        exists b. split; [|now right]. apply in_or_app. left. assumption.
      * exists c. split; [|now left].
        apply in_or_app. left. apply in_or_app. right. now left.
    + intros Hacc. apply Hord. unfold keep_base.
      destruct (existsb (fun b => issubclass b c) acc) eqn:E; [assumption|].
      apply FOP_snoc; [assumption|].
      apply Forall_forall. intros b Hb.
      destruct (issubclass b c) eqn:Hs; [|reflexivity].
      assert (existsb (fun b => issubclass b c) acc = true)
        by (apply existsb_exists; eauto).
      congruence.
Qed.

(** The kept bases are candidates, every candidate is a kept base or an
    ancestor of one, and no kept base is a subclass of a later kept base. *)
Lemma minimal_bases_cover (mro : list ClassRef) :
  incl (minimal_bases mro) (drop_roots mro)
  /\ (forall base, In base (drop_roots mro) ->
        exists b, In b (minimal_bases mro) /\ (b = base \/ issubclass b base = true))
  /\ no_earlier_subclass (minimal_bases mro).
Proof.
  unfold minimal_bases.
  destruct (keep_base_fold (drop_roots mro) []) as ((added & Hadd & Hincl) & Hc & Ho).
  split; [|split].
  - rewrite Hadd. assumption.
  - assumption.
  - apply Ho. constructor.
Qed.

Lemma FOP_remove {A : Type} (R : A -> A -> Prop) (l1 l2 : list A) (x : A) :
  ForallOrdPairs R (l1 ++ x :: l2) -> ForallOrdPairs R (l1 ++ l2).
Proof.
  induction l1 as [|a l1 IH]; simpl; intros H; inversion H; subst.
  - assumption.
  - constructor; [|now apply IH].
    match goal with Hf : Forall _ (l1 ++ x :: l2) |- _ =>
      apply Forall_app in Hf as [H1 H2]; inversion H2; subst end.
    apply Forall_app. now split.
Qed.

Lemma FOP_both {A : Type} (R1 R2 : A -> A -> Prop) (l : list A) :
  ForallOrdPairs R1 l -> ForallOrdPairs R2 l ->
  ForallOrdPairs (fun x y => R1 x y /\ R2 x y) l.
Proof.
  induction 1 as [|a l Ha Hl IH]; intros H2; inversion H2; subst; constructor.
  - rewrite Forall_forall in *. auto.
  - now apply IH.
Qed.

Lemma keep_base_fold_later (candidates acc : list ClassRef) :
  no_later_subclass (acc ++ candidates) ->
  no_later_subclass (fold_left keep_base candidates acc).
Proof.
  revert acc. induction candidates as [|c candidates IH]; intros acc H; simpl.
  - now rewrite app_nil_r in H.
  - apply IH. unfold keep_base.
    destruct (existsb (fun b => issubclass b c) acc).
    + now apply FOP_remove in H.
    + now rewrite <- app_assoc.
Qed.

(** In general: when the resolution order lists every class before its
    ancestors, the kept bases are an antichain under the subclass relation. *)
Lemma minimal_bases_antichain (mro : list ClassRef) :
  no_later_subclass (drop_roots mro) -> antichain (minimal_bases mro).
Proof.
  intros H. apply FOP_both.
  - apply minimal_bases_cover.
  - now apply keep_base_fold_later.
Qed.

(** ** Symbols with dunder names *)

Section ModulePasses.

Variable infer_sig_from_docstring : option string -> string -> option (string * string).
Variable infer_prop_type_from_docstring : option string -> option string.

Lemma type_pass_skips_dunders module sigs class_sigs items st :
  fold_left (type_step infer_sig_from_docstring infer_prop_type_from_docstring
               module sigs class_sigs) items st
  = fold_left (type_step infer_sig_from_docstring infer_prop_type_from_docstring
                 module sigs class_sigs) (filter not_dunder items) st.
Proof.
  revert st. induction items as [|[name obj] items IH]; intros st; [reflexivity|].
  cbn [fold_left filter]. unfold not_dunder at 1. cbn [fst].
  destruct (is_dunder name) eqn:E; cbn [negb fold_left]; [|apply IH].
  replace (type_step _ _ module sigs class_sigs st (name, obj)) with st
    by (unfold type_step; now rewrite E).
  apply IH.
Qed.

Lemma variable_pass_skips_dunders done items variables :
  fold_left (variable_step done) items variables
  = fold_left (variable_step done) (filter not_dunder items) variables.
Proof.
  revert variables.
  induction items as [|[name obj] items IH]; intros variables; [reflexivity|].
  cbn [fold_left filter]. unfold not_dunder at 1. cbn [fst].
  destruct (is_dunder name) eqn:E; cbn [negb fold_left]; [|apply IH].
  replace (variable_step done variables (name, obj)) with variables
    by (unfold variable_step; now rewrite E).
  apply IH.
Qed.

(** Every line of the variable pass declares an item whose name is not a
    dunder name. *)
Lemma variable_lines_named done items variables line :
  In line (fold_left (variable_step done) items variables) ->
  In line variables
  \/ exists name obj type_str,
       In (name, obj) items /\ is_dunder name = false
       /\ line = name +++ ": " +++ type_str.
Proof.
  revert variables. induction items as [|[name obj] items IH]; intros variables; simpl.
  - auto.
  - intros H. apply IH in H as [H|(n & o & t & Hin & Hd & Hl)].
    + unfold variable_step in H.
      destruct (is_dunder name) eqn:E; [now left|].
      destruct (negb (PyStr.mem name done) && negb (ismodule (shape obj)));
        [|now left].
      apply in_app_or in H as [H|[H|[]]]; [now left|].
      right. exists name, obj. eexists. split; [now left|]. split; [exact E|].
      symmetry. exact H.
    + right. exists n, o, t. auto.
Qed.

(** The function pass never loses a line, and emits a [def] line for every
    item that is a C function, whatever its name. *)
Lemma function_pass_emits module sigs items st name obj :
  In (name, obj) items ->
  is_c_function (shape obj) = true ->
  exists line,
    In line (ps_lines (fold_left (function_step infer_sig_from_docstring module sigs)
                         items st))
    /\ PyStr.startswith line ("def " +++ name +++ "(") = true.
Proof.
  assert (Hkeep : forall items st line,
             In line (ps_lines st) ->
             In line (ps_lines (fold_left (function_step infer_sig_from_docstring
                                             module sigs) items st))).
  { clear. induction items as [|[n o] items IH]; intros st line H; simpl; [assumption|].
    apply IH. unfold function_step.
    destruct (is_c_function (shape o)); [|assumption].
    destruct (generate_c_function_stub_line infer_sig_from_docstring module n
                (shape o) (ps_lines st) (ps_imports st) None sigs None empty_dict)
      as [r Hr].
    destruct (generate_c_function_stub _ _ _ _ _ _ _ _ _ _) as [fs imps].
    simpl in *. subst fs. apply in_or_app. now left. }
  revert st. induction items as [|[n o] items IH]; intros st Hin Hf; simpl.
  - destruct Hin.
  - destruct Hin as [Heq|Hin]; [|now apply IH].
    inversion Heq; subst n o. clear Heq.
    destruct (generate_c_function_stub_line infer_sig_from_docstring module name
                (shape obj) (ps_lines st) (ps_imports st) None sigs None empty_dict)
      as [r Hr].
    exists ("def " +++ name +++ "(" +++ r). split.
    + apply Hkeep. unfold function_step. rewrite Hf.
      destruct (generate_c_function_stub _ _ _ _ _ _ _ _ _ _) as [fs imps].
      simpl in *. subst fs. apply in_or_app. right. now left.
    + rewrite <- !append_assoc. apply startswith_append.
Qed.

End ModulePasses.

(** ** Sorting *)

Lemma insert_by_perm {A : Type} (lt : A -> A -> bool) (x : A) (l : list A) :
  Permutation (insert_by lt x l) (x :: l).
Proof.
  induction l as [|y l IH]; simpl; [reflexivity|].
  destruct (lt y x); [|reflexivity].
  rewrite IH. apply perm_swap.
Qed.

Lemma sorted_perm {A : Type} (lt : A -> A -> bool) (l : list A) :
  Permutation (sorted lt l) l.
Proof.
  induction l as [|x l IH]; simpl; [reflexivity|].
  rewrite insert_by_perm. now constructor.
Qed.

Section SortedByKey.

Context {A K : Type} (key : A -> K) (klt : K -> K -> bool).

Hypothesis klt_irrefl : forall k, klt k k = false.
Hypothesis klt_trans :
  forall a b c, klt a b = true -> klt b c = true -> klt a c = true.
Hypothesis klt_total : forall a b, a = b \/ klt a b = true \/ klt b a = true.

Let lt (x y : A) : bool := klt (key x) (key y).
Let ascending : list A -> Prop := StronglySorted (fun x y => lt x y = true).

Lemma insert_by_ascending (x : A) (l : list A) :
  ascending l -> ~ In (key x) (map key l) -> ascending (insert_by lt x l).
Proof.
  unfold ascending. induction 1 as [|y l Hl IH Hy]; intros Hx; simpl.
  - constructor; constructor.
  - destruct (lt y x) eqn:E.
    + constructor.
      * apply IH. intros H. apply Hx. now right.
      * apply Forall_forall. intros z Hz.
        apply (Permutation_in _ (insert_by_perm lt x l)) in Hz.
        destruct Hz as [<-|Hz]; [assumption|].
        rewrite Forall_forall in Hy. now apply Hy.
    + assert (Hxy : lt x y = true).
      { unfold lt in *. destruct (klt_total (key x) (key y)) as [H|[H|H]].
        - exfalso. apply Hx. left. now symmetry.
        - assumption.
        - congruence. }
      constructor; [now constructor|].
      constructor; [assumption|].
      rewrite Forall_forall in *. intros z Hz.
      unfold lt in *. eapply klt_trans; [exact Hxy | now apply Hy].
Qed.

Lemma sorted_ascending (l : list A) :
  NoDup (map key l) -> ascending (sorted lt l).
Proof.
  induction l as [|x l IH]; simpl; intros H.
  - constructor.
  - inversion H; subst. apply insert_by_ascending; [now apply IH|].
    intros Hin. apply in_map_iff in Hin as (y & Hk & Hy).
    apply (Permutation_in _ (sorted_perm lt l)) in Hy.
    match goal with Hn : ~ In (key x) _ |- _ => apply Hn end.
    rewrite <- Hk. now apply in_map.
Qed.

Lemma ascending_unique (l1 l2 : list A) :
  ascending l1 -> ascending l2 -> Permutation l1 l2 -> l1 = l2.
Proof.
  unfold ascending. intros H1. revert l2.
  induction H1 as [|x l1 Hl1 IH Hx]; intros l2 H2 Hp.
  - apply Permutation_nil in Hp. now subst.
  - destruct H2 as [|y l2 Hl2 Hy].
    + apply Permutation_sym, Permutation_nil in Hp. discriminate.
    + assert (Hxy : x = y).
      { assert (Hxin : In x (y :: l2))
          by (apply (Permutation_in _ Hp); now left).
        assert (Hyin : In y (x :: l1))
          by (apply (Permutation_in _ (Permutation_sym Hp)); now left).
        destruct Hxin as [->|Hxin]; [reflexivity|].
        destruct Hyin as [->|Hyin]; [reflexivity|].
        rewrite Forall_forall in Hx, Hy.
        pose proof (Hx _ Hyin) as Ha. pose proof (Hy _ Hxin) as Hb.
        unfold lt in *.
        pose proof (klt_trans _ _ _ Ha Hb) as Hc.
        rewrite klt_irrefl in Hc. discriminate. }
      subst y. f_equal. apply IH; [assumption|].
      now apply Permutation_cons_inv in Hp.
Qed.

(** A list with distinct keys has one sorted arrangement, whatever the
    order it is given in. *)
Lemma sorted_of_permutation (l1 l2 : list A) :
  NoDup (map key l1) -> Permutation l1 l2 ->
  sorted (fun x y => klt (key x) (key y)) l1
  = sorted (fun x y => klt (key x) (key y)) l2.
Proof.
  intros Hn Hp. apply ascending_unique.
  - now apply sorted_ascending.
  - apply sorted_ascending.
    apply (Permutation_NoDup (Permutation_map key Hp) Hn).
  - rewrite !sorted_perm. assumption.
Qed.

(** Sorting two lists that agree on keys, item by item, keeps them in step. *)
Lemma sorted_Forall2 (R : A -> A -> Prop) (l1 l2 : list A) :
  (forall x y, R x y -> key x = key y) ->
  Forall2 R l1 l2 ->
  Forall2 R (sorted (fun x y => klt (key x) (key y)) l1)
            (sorted (fun x y => klt (key x) (key y)) l2).
Proof.
  intros HR. induction 1 as [|x y l1 l2 Hxy Hl IH]; simpl; [constructor|].
  revert IH. generalize (sorted (fun x y => klt (key x) (key y)) l1)
                        (sorted (fun x y => klt (key x) (key y)) l2).
  induction 1 as [|a b s1 s2 Hab Hs IHs]; simpl.
  - constructor; [assumption | constructor].
  - rewrite (HR _ _ Hxy), (HR _ _ Hab).
    destruct (klt (key b) (key y)); constructor; auto.
Qed.

End SortedByKey.

(** The order on strings is a strict total order. *)

Lemma string_compare_refl (s : string) : String.compare s s = Eq.
Proof.
  induction s as [|c s IH]; simpl; [reflexivity|].
  unfold Ascii.compare. now rewrite N.compare_refl.
Qed.

Lemma ltb_irrefl (s : string) : PyStr.ltb s s = false.
Proof. unfold PyStr.ltb, String.ltb. now rewrite string_compare_refl. Qed.

Lemma ltb_total (a b : string) :
  a = b \/ PyStr.ltb a b = true \/ PyStr.ltb b a = true.
Proof.
  unfold PyStr.ltb, String.ltb. rewrite (String.compare_antisym b a).
  destruct (String.compare a b) eqn:E; simpl; auto.
  left. now apply String.compare_eq_iff.
Qed.

Lemma string_compare_trans (a b c : string) :
  String.compare a b = Lt -> String.compare b c = Lt -> String.compare a c = Lt.
Proof.
  revert b c. induction a as [|x a IH]; intros [|y b] [|z c]; simpl;
    try discriminate; try reflexivity.
  destruct (Ascii.compare x y) eqn:Exy; try discriminate.
  - apply Ascii.compare_eq_iff in Exy. subst y.
    destruct (Ascii.compare x z); try discriminate; [apply IH | reflexivity].
  - intros _. destruct (Ascii.compare y z) eqn:Eyz; try discriminate.
    + apply Ascii.compare_eq_iff in Eyz. subst z. now rewrite Exy.
    + intros _. unfold Ascii.compare in *. rewrite N.compare_lt_iff in *.
      replace (N_of_ascii x ?= N_of_ascii z)%N with Lt; [reflexivity|].
      symmetry. apply N.compare_lt_iff. eapply N.lt_trans; eassumption.
Qed.

Lemma ltb_trans (a b c : string) :
  PyStr.ltb a b = true -> PyStr.ltb b c = true -> PyStr.ltb a c = true.
Proof.
  unfold PyStr.ltb, String.ltb. intros H1 H2.
  destruct (String.compare a b) eqn:E1; try discriminate.
  destruct (String.compare b c) eqn:E2; try discriminate.
  now rewrite (string_compare_trans _ _ _ E1 E2).
Qed.

(** So is the order on the keys of [method_name_sort_key]. *)

Lemma tuple_ltb_irrefl (k : nat * string) : tuple_ltb k k = false.
Proof.
  unfold tuple_ltb. now rewrite Nat.ltb_irrefl, ltb_irrefl, andb_false_r.
Qed.

Lemma tuple_ltb_total (a b : nat * string) :
  a = b \/ tuple_ltb a b = true \/ tuple_ltb b a = true.
Proof.
  destruct a as [n s], b as [m t]. unfold tuple_ltb. simpl.
  destruct (Nat.lt_trichotomy n m) as [H|[H|H]].
  - right. left. apply Nat.ltb_lt in H. now rewrite H.
  - subst m. rewrite Nat.ltb_irrefl, Nat.eqb_refl. simpl.
    destruct (ltb_total s t) as [->|[Hs|Hs]]; auto.
  - right. right. apply Nat.ltb_lt in H. now rewrite H.
Qed.

Lemma tuple_ltb_trans (a b c : nat * string) :
  tuple_ltb a b = true -> tuple_ltb b c = true -> tuple_ltb a c = true.
Proof.
  destruct a as [n s], b as [m t], c as [p u]. unfold tuple_ltb. simpl.
  rewrite !orb_true_iff, !andb_true_iff, !Nat.ltb_lt, !Nat.eqb_eq.
  intros [H1|[H1 S1]] [H2|[H2 S2]].
  - left. lia.
  - left. lia.
  - left. lia.
  - right. split; [lia|]. eapply ltb_trans; eassumption.
Qed.

Lemma method_name_sort_key_name (name : string) :
  snd (method_name_sort_key name) = name.
Proof.
  unfold method_name_sort_key.
  destruct (PyStr.mem name _); [reflexivity|]. now destruct (is_dunder name).
Qed.

Lemma unique_sort_keys {V : Type} (d : list (string * V)) :
  unique_keys d -> NoDup (map (fun x => method_name_sort_key (fst x)) d).
Proof.
  unfold unique_keys. intros H.
  rewrite <- (map_map fst method_name_sort_key).
  apply Finite.Injective_map_NoDup; [|assumption].
  intros a b Hab. rewrite <- (method_name_sort_key_name a), Hab.
  apply method_name_sort_key_name.
Qed.

(** ** Independence of enumeration order *)

Lemma fold_left_Forall2 {S A : Type} (R : A -> A -> Prop) (P : A -> Prop)
    (f g : S -> A -> S) (l1 l2 : list A) (st : S) :
  (forall st a b, R a b -> P a -> f st a = g st b) ->
  Forall2 R l1 l2 -> Forall P l1 ->
  fold_left f l1 st = fold_left g l2 st.
Proof.
  intros Hfg H. revert st. induction H as [|a b l1 l2 Hab Hl IH]; intros st HP; simpl.
  - reflexivity.
  - inversion HP; subst. rewrite (Hfg st a b Hab); auto.
Qed.

Lemma mem_permutation (x : string) (l1 l2 : list string) :
  Permutation l1 l2 -> PyStr.mem x l1 = PyStr.mem x l2.
Proof.
  intros Hp. unfold PyStr.mem.
  destruct (existsb (String.eqb x) l1) eqn:E1, (existsb (String.eqb x) l2) eqn:E2;
    try reflexivity.
  - apply existsb_exists in E1 as (y & Hy & Hxy).
    assert (existsb (String.eqb x) l2 = true)
      by (apply existsb_exists; exists y; split;
          [apply (Permutation_in _ Hp) |]; assumption).
    congruence.
  - apply existsb_exists in E2 as (y & Hy & Hxy).
    assert (existsb (String.eqb x) l1 = true)
      by (apply existsb_exists; exists y; split;
          [apply (Permutation_in _ (Permutation_sym Hp)) |]; assumption).
    congruence.
Qed.

Section Determinism.

Variable infer_sig_from_docstring : option string -> string -> option (string * string).
Variable infer_prop_type_from_docstring : option string -> option string.

(** The generators read nothing of a module but its name. *)
Lemma function_stub_module_name n d1 d2 name obj output imports self_var sigs
    class_name class_sigs :
  generate_c_function_stub infer_sig_from_docstring (mkModule n d1) name obj output
    imports self_var sigs class_name class_sigs
  = generate_c_function_stub infer_sig_from_docstring (mkModule n d2) name obj output
      imports self_var sigs class_name class_sigs.
Proof. reflexivity. Qed.

Lemma type_stub_module_name n d1 d2 class_name obj output imports sigs class_sigs :
  generate_c_type_stub infer_sig_from_docstring infer_prop_type_from_docstring
    (mkModule n d1) class_name obj output imports sigs class_sigs
  = generate_c_type_stub infer_sig_from_docstring infer_prop_type_from_docstring
      (mkModule n d2) class_name obj output imports sigs class_sigs.
Proof. reflexivity. Qed.

Lemma fold_left_pointwise {S A : Type} (f g : S -> A -> S) (l : list A) (st : S) :
  (forall st a, f st a = g st a) -> fold_left f l st = fold_left g l st.
Proof.
  intros H. revert st. induction l as [|a l IH]; intros st; simpl; [reflexivity|].
  now rewrite H, IH.
Qed.

(** A class stub does not depend on the order in which the class's
    [__dict__] is enumerated. *)
Lemma type_stub_same_value module class_name o1 o2 output imports sigs class_sigs :
  same_value o1 o2 -> unique_keys (obj_dict o1) ->
  generate_c_type_stub infer_sig_from_docstring infer_prop_type_from_docstring
    module class_name o1 output imports sigs class_sigs
  = generate_c_type_stub infer_sig_from_docstring infer_prop_type_from_docstring
      module class_name o2 output imports sigs class_sigs.
Proof.
  destruct o1 as [s1 d1 mro1], o2 as [s2 d2 mro2]. unfold same_value. simpl.
  intros (-> & -> & Hp) Hu. unfold generate_c_type_stub. simpl.
  pose proof (sorted_of_permutation (fun x : string * PyValue =>
                                       method_name_sort_key (fst x))
                tuple_ltb tuple_ltb_irrefl tuple_ltb_trans tuple_ltb_total
                d1 d2 (unique_sort_keys _ Hu) Hp) as Hs.
  cbv beta in Hs. rewrite Hs.
  rewrite (fold_left_pointwise
             (member_step infer_sig_from_docstring infer_prop_type_from_docstring
                module class_name d1 sigs class_sigs)
             (member_step infer_sig_from_docstring infer_prop_type_from_docstring
                module class_name d2 sigs class_sigs)); [reflexivity|].
  intros st [attr value]. unfold member_step.
  now rewrite (mem_permutation "__init__" _ _ (Permutation_map fst Hp)).
Qed.

(** The three passes agree on two enumerations of one module. *)
Lemma passes_same_snapshot n d1 d2 sigs class_sigs :
  unique_keys d1 ->
  Forall (fun item => unique_keys (obj_dict (snd item))) d1 ->
  (exists d, Permutation d1 d /\ Forall2 same_item d d2) ->
  function_pass infer_sig_from_docstring (mkModule n d1) sigs
  = function_pass infer_sig_from_docstring (mkModule n d2) sigs
  /\ type_pass infer_sig_from_docstring infer_prop_type_from_docstring
       (mkModule n d1) sigs class_sigs
     = type_pass infer_sig_from_docstring infer_prop_type_from_docstring
         (mkModule n d2) sigs class_sigs
  /\ variable_pass infer_sig_from_docstring infer_prop_type_from_docstring
       (mkModule n d1) sigs class_sigs
     = variable_pass infer_sig_from_docstring infer_prop_type_from_docstring
         (mkModule n d2) sigs class_sigs.
Proof.
  intros Hu Hok (d & Hp & Hf).
  assert (Hitems : Forall2 same_item (sorted_items d1) (sorted_items d2)).
  { unfold sorted_items.
    pose proof (sorted_of_permutation (fun x : string * PyObj => fst x) PyStr.ltb
                  ltb_irrefl ltb_trans ltb_total d1 d Hu Hp) as Hs.
    cbv beta in Hs. rewrite Hs.
    apply (sorted_Forall2 (fun x : string * PyObj => fst x) PyStr.ltb same_item);
      [|assumption].
    intros x y [Hxy _]. exact Hxy. }
  assert (Hkeys : Forall (fun item => unique_keys (obj_dict (snd item)))
                    (sorted_items d1)).
  { rewrite Forall_forall in *. intros item Hin. apply Hok.
    unfold sorted_items in Hin.
    eapply Permutation_in; [apply sorted_perm | exact Hin]. }
  assert (Hfun : function_pass infer_sig_from_docstring (mkModule n d1) sigs
                 = function_pass infer_sig_from_docstring (mkModule n d2) sigs).
  { unfold function_pass. simpl module_dict.
    apply (fold_left_Forall2 same_item (fun _ => True)); [|assumption|].
    - intros st [n1 o1] [n2 o2] [Hn (Hsh & _ & _)] _. simpl in Hn, Hsh. subst n2.
      unfold function_step. rewrite Hsh. reflexivity.
    - apply Forall_forall. auto. }
  assert (Htype : type_pass infer_sig_from_docstring infer_prop_type_from_docstring
                    (mkModule n d1) sigs class_sigs
                  = type_pass infer_sig_from_docstring infer_prop_type_from_docstring
                      (mkModule n d2) sigs class_sigs).
  { unfold type_pass. rewrite Hfun. simpl module_dict.
    apply (fold_left_Forall2 same_item
             (fun item => unique_keys (obj_dict (snd item)))); [|assumption..].
    intros st [n1 o1] [n2 o2] [Hn Hv] Hk. simpl in Hn, Hk. subst n2.
    unfold type_step.
    rewrite (type_stub_same_value (mkModule n d1) n1 o1 o2 _ _ sigs class_sigs Hv Hk).
    destruct Hv as (Hsh & _ & _). simpl in Hsh. rewrite Hsh. reflexivity. }
  split; [exact Hfun|]. split; [exact Htype|].
  unfold variable_pass. rewrite Htype. simpl module_dict.
  apply (fold_left_Forall2 same_item (fun _ => True)); [|assumption|].
  - intros st [n1 o1] [n2 o2] [Hn (Hsh & _ & _)] _. simpl in Hn, Hsh. subst n2.
    unfold variable_step. rewrite Hsh. reflexivity.
  - apply Forall_forall. auto.
Qed.

(** The sorted import lines do not depend on how the set is enumerated. *)
Lemma sorted_set_enumeration s1 s2 (imports : list string) :
  set_enumeration s1 -> set_enumeration s2 ->
  sorted PyStr.ltb (s1 imports) = sorted PyStr.ltb (s2 imports).
Proof.
  intros H1 H2. destruct (H1 imports) as [N1 I1], (H2 imports) as [N2 I2].
  apply (sorted_of_permutation (fun x : string => x) PyStr.ltb
           ltb_irrefl ltb_trans ltb_total).
  - now rewrite map_id.
  - apply NoDup_Permutation; try assumption.
    intros x. rewrite I1, I2. tauto.
Qed.

(** The lines of the stub are the same for two enumerations of a module
    and two enumeration orders of sets. *)
Lemma stub_lines_same_snapshot s1 s2 m1 m2 sigs class_sigs :
  set_enumeration s1 -> set_enumeration s2 ->
  snapshot_ok m1 -> same_snapshot m1 m2 ->
  stub_lines infer_sig_from_docstring infer_prop_type_from_docstring s1 m1
    sigs class_sigs
  = stub_lines infer_sig_from_docstring infer_prop_type_from_docstring s2 m2
      sigs class_sigs.
Proof.
  intros H1 H2 [Hu Hok] [Hn Hd].
  destruct m1 as [n1 d1], m2 as [n2 d2]. simpl in *. subst n2.
  destruct (passes_same_snapshot n1 d1 d2 sigs class_sigs Hu Hok Hd)
    as (Hf & Ht & Hv).
  unfold stub_lines. rewrite Hf, Ht, Hv. unfold assemble.
  now rewrite (sorted_set_enumeration s1 s2 _ H1 H2).
Qed.

End Determinism.

Lemma existsb_permutation {A : Type} (f : A -> bool) (l1 l2 : list A) :
  Permutation l1 l2 -> existsb f l1 = existsb f l2.
Proof.
  induction 1 as [|x l1 l2 Hp IH|x y l|l1 l2 l3 H12 IH12 H23 IH23]; simpl.
  - reflexivity.
  - now rewrite IH.
  - now destruct (f x), (f y).
  - congruence.
Qed.

(** Whether building the lines raises, and what, does not depend on the
    enumeration order either. *)
Lemma stub_failure_same_snapshot (m1 m2 : ModuleType) :
  snapshot_ok m1 -> same_snapshot m1 m2 -> stub_failure m1 = stub_failure m2.
Proof.
  intros [Hu _] [_ (d & Hp & Hf)]. unfold stub_failure.
  assert (Hitems : Forall2 same_item (sorted_items (module_dict m1))
                     (sorted_items (module_dict m2))).
  { unfold sorted_items.
    pose proof (sorted_of_permutation (fun x : string * PyObj => fst x) PyStr.ltb
                  ltb_irrefl ltb_trans ltb_total (module_dict m1) d Hu Hp) as Hs.
    cbv beta in Hs. rewrite Hs.
    apply (sorted_Forall2 (fun x : string * PyObj => fst x) PyStr.ltb same_item);
      [|assumption].
    intros x y [Hxy _]. exact Hxy. }
  induction Hitems as [|[n1 o1] [n2 o2] l1 l2 [Hn (Hsh & Hmro & Hdict)] Hl IH];
    [reflexivity|].
  simpl in Hn, Hsh, Hmro, Hdict. subst n2. cbn [first_failure fst snd].
  rewrite <- Hsh, IH. unfold type_stub_failure.
  now rewrite <- Hsh, <- Hmro, (existsb_permutation member_raises _ _ Hdict).
Qed.

(** ** The entry point *)

Section EntryPoint.

Variable infer_sig_from_docstring : option string -> string -> option (string * string).
Variable infer_prop_type_from_docstring : option string -> option string.

(** C7.  Two runs of the entry point on the same module and override
    tables produce the same events, hence the same text, whatever the order
    in which the module's [__dict__], the [__dict__] of each of its classes
    and the set of import lines happen to be enumerated: every enumeration
    is sorted by name before it is used. *)
Theorem generation_is_deterministic (s1 s2 : list string -> list string)
    (h1 h2 : Host) (name target : string) (add_header : bool)
    (sigs class_sigs : Dict) :
  set_enumeration s1 -> set_enumeration s2 -> same_host h1 h2 name ->
  generate_stub_for_c_module infer_sig_from_docstring infer_prop_type_from_docstring
    s1 h1 name target add_header sigs class_sigs
  = generate_stub_for_c_module infer_sig_from_docstring infer_prop_type_from_docstring
      s2 h2 name target add_header sigs class_sigs.
Proof.
  intros H1 H2 (Hd & Hi & Hm & Ho & Hw & Himp).
  unfold generate_stub_for_c_module. rewrite Hd, Hi, Hm, Ho, Hw.
  destruct (import_module h1 name) as [m1|], (import_module h2 name) as [m2|];
    try contradiction; [|reflexivity].
  destruct Himp as (Hok & Hsame & Hc). rewrite Hc.
  rewrite (stub_failure_same_snapshot m1 m2 Hok Hsame).
  now rewrite (stub_lines_same_snapshot infer_sig_from_docstring
                 infer_prop_type_from_docstring s1 s2 m1 m2 sigs class_sigs
                 H1 H2 Hok Hsame).
Qed.

(** A run by cases: the import fails; the module is not a C module; the
    directory cannot be created; building the lines raises; the target cannot
    be opened; or everything is written. *)
Lemma run_by_cases (set_of : list string -> list string) (host : Host)
    (name target : string) (add_header : bool) (sigs class_sigs : Dict) :
  let subdir := dirname host target in
  let need_dir := PyStr.nonempty subdir && negb (isdir host subdir) in
  let prepared := if need_dir then [EvMakedirs subdir] else [] in
  generate_stub_for_c_module infer_sig_from_docstring infer_prop_type_from_docstring
    set_of host name target add_header sigs class_sigs
  = match import_module host name with
    | None => ([], Some ImportError)
    | Some module =>
        if negb (is_c_module host module) then ([], Some AssertionError)
        else if need_dir && negb (makedirs host subdir) then ([], Some OSError)
        else match stub_failure module with
             | Some failure => (prepared, Some failure)
             | None =>
                 if negb (open_w host target) then (prepared, Some OSError)
                 else (prepared
                         ++ EvOpen target
                         :: map EvWrite
                              ((if add_header then write_header host name else [])
                                 ++ map (fun line => line +++ String (ascii_of_nat 10) "")
                                      (stub_lines infer_sig_from_docstring
                                         infer_prop_type_from_docstring set_of module
                                         sigs class_sigs))
                         ++ [EvClose], None)
             end
    end.
Proof.
  intros subdir need_dir prepared. unfold generate_stub_for_c_module.
  fold subdir. fold need_dir. fold prepared.
  destruct (import_module host name) as [module|]; [|reflexivity].
  destruct (negb (is_c_module host module)); [reflexivity|].
  destruct (need_dir && negb (makedirs host subdir)); [reflexivity|].
  destruct (stub_failure module); [reflexivity|].
  destruct (negb (open_w host target)); [reflexivity|].
  rewrite map_app, map_map, <- app_assoc. now destruct add_header.
Qed.

(** C9.  When the imported module is not a C module the run ends with the
    assertion failure and no event at all; any run with an event at all, the
    creation of the directory included, passed the check.  And whenever a
    run opens, writes or closes the output, the module was a C module, the
    directory was there or was created successfully, the lines were built
    without an exception, and the events are exactly: the creation of the
    directory if it was needed, then the opening of the target, then the
    writes, then the close. *)
Theorem precondition_before_output (set_of : list string -> list string)
    (host : Host) (name target : string) (add_header : bool)
    (sigs class_sigs : Dict) :
  let run := generate_stub_for_c_module infer_sig_from_docstring
               infer_prop_type_from_docstring set_of host name target add_header
               sigs class_sigs in
  let subdir := dirname host target in
  let need_dir := PyStr.nonempty subdir && negb (isdir host subdir) in
  (forall module,
      import_module host name = Some module ->
      is_c_module host module = false ->
      run = ([], Some AssertionError))
  /\ (fst run <> [] ->
      exists module,
        import_module host name = Some module /\ is_c_module host module = true)
  /\ (existsb touches_output (fst run) = true ->
      exists module written,
        import_module host name = Some module
        /\ is_c_module host module = true
        /\ (need_dir = true -> makedirs host subdir = true)
        /\ stub_failure module = None
        /\ open_w host target = true
        /\ run = ((if need_dir then [EvMakedirs subdir] else [])
                    ++ EvOpen target :: map EvWrite written ++ [EvClose],
                  None)).
Proof.
  intros run subdir need_dir. subst run. rewrite run_by_cases. cbv zeta.
  fold subdir. fold need_dir.
  split; [|split].
  - intros module Hm Hc. now rewrite Hm, Hc.
  - destruct (import_module host name) as [module|]; [|now intros H].
    destruct (is_c_module host module) eqn:Hc; [|now intros H]. eauto.
  - destruct (import_module host name) as [module|]; [|discriminate].
    destruct (is_c_module host module) eqn:Hc; [|discriminate]. cbn [negb].
    destruct need_dir eqn:Hn; destruct (makedirs host subdir) eqn:Hmk;
      cbn [andb negb]; try discriminate;
      (destruct (stub_failure module) eqn:Hf; [discriminate|]);
      (destruct (open_w host target) eqn:Hop; [|discriminate]);
      intros _; exists module; eexists; cbn [negb];
      repeat (split; [first [reflexivity | discriminate | auto]|]); reflexivity.
Qed.

(** C10.  The type pass and the variable pass run as if the items with a
    dunder name were not there, and every variable line declares an item
    without a dunder name; the function pass, which has no such filter,
    emits a [def] line for every item that is a C function, dunder name or
    not. *)
Theorem dunder_symbols_only_as_functions (module : ModuleType)
    (sigs class_sigs : Dict) :
  let items := sorted_items (module_dict module) in
  let fp := function_pass infer_sig_from_docstring module sigs in
  let tp := type_pass infer_sig_from_docstring infer_prop_type_from_docstring
              module sigs class_sigs in
  let variables := variable_pass infer_sig_from_docstring
                     infer_prop_type_from_docstring module sigs class_sigs in
  tp = fold_left (type_step infer_sig_from_docstring infer_prop_type_from_docstring
                    module sigs class_sigs)
         (filter not_dunder items)
         (mkPassState [] (ps_imports fp) (ps_done fp))
  /\ variables = fold_left (variable_step (ps_done tp)) (filter not_dunder items) []
  /\ (forall line, In line variables ->
        exists name obj type_str,
          In (name, obj) (module_dict module) /\ is_dunder name = false
          /\ line = name +++ ": " +++ type_str)
  /\ (forall name obj,
        In (name, obj) (module_dict module) ->
        is_c_function (shape obj) = true ->
        exists line,
          In line (ps_lines fp)
          /\ PyStr.startswith line ("def " +++ name +++ "(") = true).
Proof.
  intros items fp tp variables. subst items fp tp variables.
  split; [|split; [|split]].
  - unfold type_pass. apply type_pass_skips_dunders.
  - unfold variable_pass. apply variable_pass_skips_dunders.
  - intros line Hin. unfold variable_pass in Hin.
    apply variable_lines_named in Hin as [[]|(n & o & t & Hi & Hd & Hl)].
    exists n, o, t. split; [|auto].
    unfold sorted_items in Hi.
    eapply Permutation_in; [apply sorted_perm | exact Hi].
  - intros name obj Hin Hf. unfold function_pass.
    apply (function_pass_emits infer_sig_from_docstring module sigs _ _ name obj);
      [|assumption].
    unfold sorted_items.
    eapply Permutation_in; [apply Permutation_sym, sorted_perm | exact Hin].
Qed.

End EntryPoint.

Lemma set_of_list_enumerates : set_enumeration set_of_list.
Proof.
  intros l. unfold set_of_list. split; [apply NoDup_nodup|].
  intros x. apply nodup_In.
Qed.

Lemma set_of_list_rev_enumerates : set_enumeration set_of_list_rev.
Proof.
  intros l. unfold set_of_list_rev. split.
  - apply NoDup_rev, NoDup_nodup.
  - intros x. rewrite <- in_rev. apply nodup_In.
Qed.

Lemma module_orders_agree :
  snapshot_ok module_one_order /\ same_snapshot module_one_order module_other_order.
Proof.
  split; [split|split].
  - unfold unique_keys. simpl. repeat constructor; simpl; intuition discriminate.
  - repeat constructor; unfold unique_keys; simpl;
      repeat constructor; simpl; intuition discriminate.
  - reflexivity.
  - exists [("f", mkObj (builtin_value None) [] []);
            ("K", mkObj class_value
                    [("size", method_value None); ("__eq__", slot_value None)]
                    [derived_ref; foreign_base_ref; object_ref])].
    split; [apply perm_swap|].
    repeat constructor.
Qed.

Lemma generation_is_deterministic_witness :
  generate_stub_for_c_module stubutil_infer_sig_from_docstring
    stubutil_infer_prop_type_from_docstring set_of_list
    (sample_host module_one_order true) "mod" "out/mod.pyi" true empty_dict empty_dict
  = generate_stub_for_c_module stubutil_infer_sig_from_docstring
      stubutil_infer_prop_type_from_docstring set_of_list_rev
      (sample_host module_other_order true) "mod" "out/mod.pyi" true empty_dict
      empty_dict.
Proof.
  apply generation_is_deterministic.
  - exact set_of_list_enumerates.
  - exact set_of_list_rev_enumerates.
  - unfold same_host. simpl.
    repeat (split; [reflexivity|]).
    destruct module_orders_agree as [Hok Hsame].
    split; [exact Hok|]. split; [exact Hsame | reflexivity].
Defined.

Lemma precondition_before_output_witness :
  generate_stub_for_c_module stubutil_infer_sig_from_docstring
    stubutil_infer_prop_type_from_docstring set_of_list
    (sample_host module_with_foreign_base false) "mod" "out/mod.pyi" true
    empty_dict empty_dict
  = ([], Some AssertionError)
  /\ exists written,
      generate_stub_for_c_module stubutil_infer_sig_from_docstring
        stubutil_infer_prop_type_from_docstring set_of_list
        (sample_host module_with_foreign_base true) "mod" "out/mod.pyi" true
        empty_dict empty_dict
      = ([EvMakedirs "out"]
           ++ EvOpen "out/mod.pyi" :: map EvWrite written ++ [EvClose], None).
Proof.
  split.
  - apply (proj1 (precondition_before_output stubutil_infer_sig_from_docstring
                    stubutil_infer_prop_type_from_docstring set_of_list
                    (sample_host module_with_foreign_base false) "mod" "out/mod.pyi"
                    true empty_dict empty_dict) module_with_foreign_base);
      reflexivity.
  - destruct (proj2 (proj2 (precondition_before_output
                              stubutil_infer_sig_from_docstring
                              stubutil_infer_prop_type_from_docstring set_of_list
                              (sample_host module_with_foreign_base true) "mod"
                              "out/mod.pyi" true empty_dict empty_dict)) eq_refl)
      as (m & written & _ & _ & _ & _ & _ & H).
    exists written. exact H.
Defined.

Lemma dunder_symbols_only_as_functions_witness :
  is_dunder "__helper__" = true
  /\ (exists line,
         In line (ps_lines (function_pass stubutil_infer_sig_from_docstring
                              module_with_dunders empty_dict))
         /\ PyStr.startswith line "def __helper__(" = true)
  /\ stub_lines stubutil_infer_sig_from_docstring
       stubutil_infer_prop_type_from_docstring set_of_list module_with_dunders
       empty_dict empty_dict
     = ["from typing import Any"; ""; "def __helper__(*args, **kwargs) -> Any: ..."]
  /\ stub_lines stubutil_infer_sig_from_docstring
       stubutil_infer_prop_type_from_docstring set_of_list module_without_dunders
       empty_dict empty_dict
     = ["from typing import Any"; ""; "version: str"; "";
        "def helper(*args, **kwargs) -> Any: ..."; ""; "class Hidden: ..."].
Proof.
  split; [reflexivity|]. split; [|split; reflexivity].
  destruct (dunder_symbols_only_as_functions stubutil_infer_sig_from_docstring
              stubutil_infer_prop_type_from_docstring module_with_dunders
              empty_dict empty_dict) as (_ & _ & _ & H).
  apply (H "__helper__" (mkObj (builtin_value None) [] [])).
  - simpl. auto.
  - reflexivity.
Defined.

(** * Further properties *)

(** ** The import list *)

Lemma grows_refl (imports : list string) : grows imports imports.
Proof. exists []. split; [now rewrite app_nil_r | constructor]. Qed.

Lemma grows_trans (a b c : list string) : grows a b -> grows b c -> grows a c.
Proof.
  intros (x & -> & Hx) (y & -> & Hy). exists (x ++ y).
  split; [now rewrite app_assoc | now apply Forall_app].
Qed.

Lemma take_drop (n : nat) (s : string) : s = PyStr.take n s +++ PyStr.drop n s.
Proof.
  revert s. induction n as [|n IH]; intros [|c s]; simpl; try reflexivity.
  now rewrite <- IH.
Qed.

(** The last occurrence of a character splits the string around it. *)
Lemma rindex_split (c : ascii) (s : string) (i : nat) :
  PyStr.rindex c s = Some i ->
  exists last, s = PyStr.take i s +++ String c last
               /\ PyStr.contains c last = false
               /\ String.length (PyStr.take i s) = i.
Proof.
  revert i. induction s as [|d s IH]; intros i; simpl; [discriminate|].
  destruct (PyStr.rindex c s) as [j|] eqn:E.
  - intros H. inversion H; subst i. destruct (IH j eq_refl) as (last & Hs & Hl & Hn).
    exists last. simpl. rewrite Hn. split; [now rewrite <- Hs | auto].
  - destruct (Ascii.eqb_spec d c) as [->|Hd]; [|discriminate].
    intros H. inversion H; subst i. exists s. simpl. split; [reflexivity|].
    split; [|reflexivity].
    clear -E. induction s as [|x s IHs]; simpl in *; [reflexivity|].
    destruct (PyStr.rindex c s); [discriminate|].
    destruct (Ascii.eqb x c); [discriminate|]. now apply IHs.
Qed.

Lemma contains_rindex (c : ascii) (s : string) :
  PyStr.contains c s = true -> exists i, PyStr.rindex c s = Some i.
Proof.
  induction s as [|d s IH]; simpl; [discriminate|].
  intros H. destruct (PyStr.rindex c s) as [j|] eqn:E; [eauto|].
  destruct (Ascii.eqb d c); [eauto|]. simpl in H. destruct (IH H). discriminate.
Qed.

Lemma strip_or_import_grows (typ : string) (module : ModuleType)
    (imports : list string) :
  grows imports (snd (strip_or_import typ module imports)).
Proof.
  unfold strip_or_import.
  destruct (PyStr.startswith typ (module_name module)); [apply grows_refl|].
  destruct (PyStr.contains "." typ); [|apply grows_refl].
  destruct (String.eqb _ "builtins"); [apply grows_refl|].
  simpl. eexists. split; [reflexivity|]. repeat constructor.
Qed.

Section ImportGrowth.

Variable infer_sig_from_docstring : option string -> string -> option (string * string).
Variable infer_prop_type_from_docstring : option string -> option string.

Lemma render_args_grow module args sig_types imports :
  grows imports (snd (fold_left (render_arg module) args (sig_types, imports))).
Proof.
  revert sig_types imports. induction args as [|arg args IH]; intros sig_types imports.
  - apply grows_refl.
  - cbn [fold_left].
    assert (Hg : grows imports (snd (render_arg module (sig_types, imports) arg))).
    { unfold render_arg. destruct (PyStr.split1 ":" arg) as [a [t|]].
      - pose proof (strip_or_import_grows (PyStr.strip t) module imports) as Hg.
        now destruct (strip_or_import (PyStr.strip t) module imports).
      - apply grows_refl. }
    destruct (render_arg module (sig_types, imports) arg) as [sig_types' imports'].
    eapply grows_trans; [exact Hg | apply IH].
Qed.

Lemma render_sig_grows module sig imports :
  grows imports (snd (render_sig module sig imports)).
Proof.
  unfold render_sig. destruct (PyStr.nonempty sig); [|apply grows_refl].
  pose proof (render_args_grow module (PyStr.split "," sig) [] imports) as Hg.
  now destruct (fold_left _ _ _).
Qed.

Lemma function_stub_grows module name obj output imports self_var sigs class_name
    class_sigs :
  grows imports
    (snd (generate_c_function_stub infer_sig_from_docstring module name obj output
            imports self_var sigs class_name class_sigs)).
Proof.
  rewrite generate_c_function_stub_eq. cbv zeta. simpl snd.
  eapply grows_trans; [apply render_sig_grows | apply strip_or_import_grows].
Qed.

Lemma render_bases_grows module bases imports :
  grows imports (snd (render_bases module bases imports)).
Proof.
  assert (H : forall bases names imports,
             grows imports (snd (fold_left (render_base module) bases (names, imports)))).
  { clear. induction bases as [|b bases IH]; intros names imports; [apply grows_refl|].
    cbn [fold_left].
    assert (Hg : grows imports (snd (render_base module (names, imports) b))).
    { unfold render_base.
      pose proof (strip_or_import_grows (cls_module b +++ "." +++ cls_name b) module
                    imports) as Hg.
      now destruct (strip_or_import _ module imports). }
    destruct (render_base module (names, imports) b) as [names' imports'].
    eapply grows_trans; [exact Hg | apply IH]. }
  unfold render_bases. destruct bases as [|b bases]; [apply grows_refl|].
  specialize (H (b :: bases) [] imports). now destruct (fold_left _ _ _).
Qed.

Lemma member_step_grows module class_name obj_dict sigs class_sigs st item :
  grows (ms_imports st)
    (ms_imports (member_step infer_sig_from_docstring infer_prop_type_from_docstring
                   module class_name obj_dict sigs class_sigs st item)).
Proof.
  destruct item as [attr value]. unfold member_step.
  destruct (is_c_method value || is_c_classmethod value).
  - destruct (negb (is_skipped_attribute attr)); [|apply grows_refl].
    destruct (String.eqb attr "__new__" && PyStr.mem "__init__" (map fst obj_dict));
      [apply grows_refl|].
    match goal with
    | |- context [generate_c_function_stub ?i ?m ?n ?o ?out ?imps ?sv ?sg ?cn ?cs] =>
        pose proof (function_stub_grows m n o out imps sv sg cn cs) as Hg;
        destruct (generate_c_function_stub i m n o out imps sv sg cn cs)
    end.
    exact Hg.
  - destruct (is_c_property value); apply grows_refl.
Qed.

Lemma member_steps_grow module class_name obj_dict sigs class_sigs items st :
  grows (ms_imports st)
    (ms_imports (fold_left (member_step infer_sig_from_docstring
                              infer_prop_type_from_docstring module class_name
                              obj_dict sigs class_sigs) items st)).
Proof.
  revert st. induction items as [|item items IH]; intros st; [apply grows_refl|].
  cbn [fold_left]. eapply grows_trans; [apply member_step_grows | apply IH].
Qed.

Lemma type_stub_grows module class_name obj output imports sigs class_sigs :
  grows imports
    (snd (generate_c_type_stub infer_sig_from_docstring infer_prop_type_from_docstring
            module class_name obj output imports sigs class_sigs)).
Proof.
  unfold generate_c_type_stub.
  match goal with
  | |- context [fold_left ?f ?items ?st0] =>
      pose proof (member_steps_grow module class_name (obj_dict obj) sigs class_sigs
                    items st0) as Hm;
      set (st := fold_left f items st0) in *
  end.
  simpl in Hm.
  pose proof (render_bases_grows module (minimal_bases (obj_mro obj)) (ms_imports st))
    as Hb.
  destruct (render_bases module (minimal_bases (obj_mro obj)) (ms_imports st))
    as [bases_str imports'].
  assert (Hg : grows imports imports') by (eapply grows_trans; eassumption).
  destruct (ms_methods st); [|exact Hg].
  match goal with |- context [map ?f ?l] => destruct (map f l) end; [|exact Hg].
  destruct (ms_properties st); exact Hg.
Qed.

Lemma function_steps_grow module sigs items st :
  grows (ps_imports st)
    (ps_imports (fold_left (function_step infer_sig_from_docstring module sigs)
                   items st)).
Proof.
  revert st. induction items as [|[name obj] items IH]; intros st; [apply grows_refl|].
  cbn [fold_left]. eapply grows_trans; [|apply IH].
  unfold function_step. destruct (is_c_function (shape obj)); [|apply grows_refl].
  pose proof (function_stub_grows module name (shape obj) (ps_lines st) (ps_imports st)
                None sigs None empty_dict) as Hg.
  now destruct (generate_c_function_stub _ _ _ _ _ _ _ _ _ _).
Qed.

Lemma type_steps_grow module sigs class_sigs items st :
  grows (ps_imports st)
    (ps_imports (fold_left (type_step infer_sig_from_docstring
                              infer_prop_type_from_docstring module sigs class_sigs)
                   items st)).
Proof.
  revert st. induction items as [|[name obj] items IH]; intros st; [apply grows_refl|].
  cbn [fold_left]. eapply grows_trans; [|apply IH].
  unfold type_step. destruct (is_dunder name); [apply grows_refl|].
  destruct (is_c_type (shape obj)); [|apply grows_refl].
  pose proof (type_stub_grows module name obj (ps_lines st) (ps_imports st) sigs
                class_sigs) as Hg.
  now destruct (generate_c_type_stub _ _ _ _ _ _ _ _ _).
Qed.

(** X5.  Nothing ever leaves the import list: each generator returns the
    list it was given followed by lines of the form [import ...], so the type
    pass ends with the imports of the function pass followed by its own, and
    every recorded import is an [import ...] line. *)
Theorem imports_only_grow (module : ModuleType) (sigs class_sigs : Dict) :
  (forall name obj output imports self_var class_name,
      grows imports
        (snd (generate_c_function_stub infer_sig_from_docstring module name obj output
                imports self_var sigs class_name class_sigs)))
  /\ (forall class_name obj output imports,
         grows imports
           (snd (generate_c_type_stub infer_sig_from_docstring
                   infer_prop_type_from_docstring module class_name obj output
                   imports sigs class_sigs)))
  /\ grows (ps_imports (function_pass infer_sig_from_docstring module sigs))
       (ps_imports (type_pass infer_sig_from_docstring infer_prop_type_from_docstring
                      module sigs class_sigs))
  /\ Forall (fun line => import_line line = true)
       (ps_imports (type_pass infer_sig_from_docstring infer_prop_type_from_docstring
                      module sigs class_sigs)).
Proof.
  split; [|split; [|split]].
  - intros. apply function_stub_grows.
  - intros. apply type_stub_grows.
  - unfold type_pass.
    apply (type_steps_grow module sigs class_sigs
             (sorted_items (module_dict module))
             (mkPassState [] (ps_imports (function_pass infer_sig_from_docstring
                                            module sigs))
                (ps_done (function_pass infer_sig_from_docstring module sigs)))).
  - assert (Hg : grows [] (ps_imports (type_pass infer_sig_from_docstring
                                         infer_prop_type_from_docstring module sigs
                                         class_sigs))).
    { eapply grows_trans.
      - unfold function_pass.
        apply (function_steps_grow module sigs (sorted_items (module_dict module))
                 (mkPassState [] [] [])).
      - unfold type_pass.
        apply (type_steps_grow module sigs class_sigs
                 (sorted_items (module_dict module))
                 (mkPassState [] (ps_imports (function_pass infer_sig_from_docstring
                                                module sigs))
                    (ps_done (function_pass infer_sig_from_docstring module sigs)))). }
    destruct Hg as (added & -> & Hf). exact Hf.
Qed.

End ImportGrowth.

(** X11.  The name [strip_or_import] displays is always a tail of the name it
    was given, and the import list is either unchanged or extended by the one
    line [import p], where the given name is [p.last] with no dot in [last]
    and is displayed in full. *)
Theorem display_name_is_suffix (typ : string) (module : ModuleType)
    (imports : list string) :
  (exists pre, typ = pre +++ fst (strip_or_import typ module imports))
  /\ (snd (strip_or_import typ module imports) = imports
      \/ exists p last,
           typ = p +++ "." +++ last
           /\ PyStr.contains "." last = false
           /\ fst (strip_or_import typ module imports) = typ
           /\ snd (strip_or_import typ module imports) = imports ++ ["import " +++ p]).
Proof.
  unfold strip_or_import.
  destruct (PyStr.startswith typ (module_name module)).
  { cbn [fst snd]. split; [eexists; apply take_drop | now left]. }
  destruct (PyStr.contains "." typ) eqn:Hc.
  2:{ cbn [fst snd]. split; [now exists "" | now left]. }
  destruct (contains_rindex _ _ Hc) as [i Hi]. rewrite Hi.
  destruct (String.eqb (PyStr.take i typ) "builtins").
  { cbn [fst snd]. split; [eexists; apply take_drop | now left]. }
  cbn [fst snd]. split; [now exists ""|]. right.
  destruct (rindex_split _ _ _ Hi) as (last & Hs & Hl & _).
  exists (PyStr.take i typ), last. auto.
Qed.

(** ** Order of the rendered sections *)

Lemma StronglySorted_filter {A : Type} (R : A -> A -> Prop) (f : A -> bool)
    (l : list A) :
  StronglySorted R l -> StronglySorted R (filter f l).
Proof.
  induction 1 as [|x l Hl IH Hx]; simpl; [constructor|].
  destruct (f x); [|assumption].
  constructor; [assumption|].
  rewrite Forall_forall in *. intros y Hy. apply filter_In in Hy as [Hy _]. auto.
Qed.

Lemma StronglySorted_map {A B : Type} (R : B -> B -> Prop) (g : A -> B) (l : list A) :
  StronglySorted (fun x y => R (g x) (g y)) l -> StronglySorted R (map g l).
Proof.
  induction 1 as [|x l Hl IH Hx]; simpl; constructor; [assumption|].
  rewrite Forall_forall in *. intros y Hy.
  apply in_map_iff in Hy as (z & <- & Hz). auto.
Qed.

Lemma sorted_items_ascending {V : Type} (d : list (string * V)) :
  unique_keys d ->
  StronglySorted (fun x y => PyStr.ltb (fst x) (fst y) = true)
    (sorted (fun x y => PyStr.ltb (fst x) (fst y)) d).
Proof.
  intros Hu.
  exact (sorted_ascending (fun x : string * V => fst x) PyStr.ltb ltb_trans ltb_total
           d Hu).
Qed.


Section PassContents.

Variable infer_sig_from_docstring : option string -> string -> option (string * string).
Variable infer_prop_type_from_docstring : option string -> option string.

Lemma function_steps_contents module sigs items st :
  let fs := filter (fun item => is_c_function (shape (snd item))) items in
  let st' := fold_left (function_step infer_sig_from_docstring module sigs) items st in
  ps_done st' = ps_done st ++ map fst fs
  /\ exists lines,
      ps_lines st' = ps_lines st ++ lines
      /\ Forall2 (fun item line =>
                    PyStr.startswith line ("def " +++ fst item +++ "(") = true)
           fs lines.
Proof.
  revert st. induction items as [|[name obj] items IH]; intros st; cbn zeta.
  - simpl. rewrite !app_nil_r. split; [reflexivity|]. exists []. rewrite app_nil_r.
    split; [reflexivity | constructor].
  - cbn [fold_left filter snd].
    destruct (IH (function_step infer_sig_from_docstring module sigs st (name, obj)))
      as (Hd & lines & Hl & Hf).
    cbv zeta in Hd, Hl, Hf. rewrite Hd, Hl. clear Hd Hl.
    unfold function_step.
    destruct (is_c_function (shape obj)) eqn:E.
    + destruct (generate_c_function_stub_line infer_sig_from_docstring module name
                  (shape obj) (ps_lines st) (ps_imports st) None sigs None empty_dict)
        as [r Hr].
      destruct (generate_c_function_stub _ _ _ _ _ _ _ _ _ _) as [fs imps].
      cbn [fst] in Hr. subst fs. cbn [ps_done ps_lines map fst].
      rewrite <- !app_assoc. cbn [app].
      split; [reflexivity|]. eexists. split; [reflexivity|].
      constructor; [|assumption].
      cbn [fst]. rewrite <- !append_assoc. apply startswith_append.
    + split; [reflexivity|]. exists lines. auto.
Qed.

Lemma type_steps_done module sigs class_sigs items st :
  ps_done (fold_left (type_step infer_sig_from_docstring infer_prop_type_from_docstring
                        module sigs class_sigs) items st)
  = ps_done st
      ++ map fst (filter (fun item => negb (is_dunder (fst item))
                                      && is_c_type (shape (snd item))) items).
Proof.
  revert st. induction items as [|[name obj] items IH]; intros st.
  - simpl. now rewrite app_nil_r.
  - cbn [fold_left filter fst snd]. rewrite IH. unfold type_step.
    destruct (is_dunder name); simpl; [reflexivity|].
    destruct (is_c_type (shape obj)); [|reflexivity].
    destruct (generate_c_type_stub _ _ _ _ _ _ _ _ _). simpl.
    now rewrite <- app_assoc.
Qed.

Lemma variable_steps_contents done items variables :
  fold_left (variable_step done) items variables
  = variables
      ++ map (fun item => fst item +++ ": " +++ variable_type (shape (snd item)))
           (filter (fun item => negb (is_dunder (fst item))
                                && (negb (PyStr.mem (fst item) done)
                                    && negb (ismodule (shape (snd item)))))
                   items).
Proof.
  revert variables. induction items as [|[name obj] items IH]; intros variables.
  - simpl. now rewrite app_nil_r.
  - cbn [fold_left filter fst snd]. rewrite IH. unfold variable_step.
    destruct (is_dunder name); simpl; [reflexivity|].
    destruct (negb (PyStr.mem name done) && negb (ismodule (shape obj)));
      [|reflexivity].
    simpl. now rewrite <- app_assoc.
Qed.

End PassContents.

Lemma unique_key_value {V : Type} (d : list (string * V)) (n : string) (v w : V) :
  unique_keys d -> In (n, v) d -> In (n, w) d -> v = w.
Proof.
  unfold unique_keys. induction d as [|[k x] d IH]; simpl; intros Hu Hv Hw; [easy|].
  inversion Hu as [|? ? Hk Hd]; subst.
  destruct Hv as [Hv|Hv], Hw as [Hw|Hw].
  - congruence.
  - inversion Hv; subst. exfalso. apply Hk. change n with (fst (n, w)). now apply in_map.
  - inversion Hw; subst. exfalso. apply Hk. change n with (fst (n, v)). now apply in_map.
  - now apply IH.
Qed.

(** In a mapping with distinct keys, a name is among the names selected by
    [keep] exactly when [keep] holds of its own item. *)
Lemma mem_selected_names {V : Type} (d : list (string * V))
    (keep : string * V -> bool) (item : string * V) :
  unique_keys d -> In item d ->
  PyStr.mem (fst item) (map fst (filter keep d)) = keep item.
Proof.
  intros Hu Hin. destruct item as [n v]. simpl. unfold PyStr.mem.
  destruct (keep (n, v)) eqn:E.
  - apply existsb_exists. exists n. split; [|apply String.eqb_refl].
    change n with (fst (n, v)). apply in_map, filter_In. auto.
  - destruct (existsb (String.eqb n) (map fst (filter keep d))) eqn:Ex; [|reflexivity].
    apply existsb_exists in Ex as (k & Hk & Hnk).
    apply String.eqb_eq in Hnk. subst k.
    apply in_map_iff in Hk as ([k w] & Hkw & Hf). simpl in Hkw. subst k.
    apply filter_In in Hf as [Hf Hkeep].
    rewrite (unique_key_value d n v w Hu Hin Hf) in E. congruence.
Qed.

Section ModuleSections.

Variable infer_sig_from_docstring : option string -> string -> option (string * string).
Variable infer_prop_type_from_docstring : option string -> option string.

(** X2.  The function pass emits one [def] line per item that is a C
    function, in the order of the sorted items, and marks exactly those names
    as done; when the module's names are distinct, that order is strictly
    increasing in the name. *)
Theorem function_stubs_in_name_order (module : ModuleType) (sigs : Dict) :
  let items := sorted_items (module_dict module) in
  let fs := filter (fun item => is_c_function (shape (snd item))) items in
  let fp := function_pass infer_sig_from_docstring module sigs in
  ps_done fp = map fst fs
  /\ Forall2 (fun item line =>
                PyStr.startswith line ("def " +++ fst item +++ "(") = true)
       fs (ps_lines fp)
  /\ (unique_keys (module_dict module) ->
      StronglySorted (fun a b => PyStr.ltb a b = true) (ps_done fp)).
Proof.
  intros items fs fp.
  destruct (function_steps_contents infer_sig_from_docstring module sigs items
              (mkPassState [] [] [])) as (Hd & lines & Hl & Hf).
  cbv zeta in Hd, Hl, Hf. simpl in Hd, Hl.
  assert (Hdone : ps_done fp = map fst fs) by exact Hd.
  split; [exact Hdone|]. split.
  - unfold fp, function_pass. fold items. rewrite Hl. exact Hf.
  - intros Hu. rewrite Hdone. apply StronglySorted_map.
    apply StronglySorted_filter. apply sorted_items_ascending. exact Hu.
Qed.

(** X3.  With distinct names in the module, the variable pass declares
    exactly the items that have no dunder name and are neither C functions,
    nor types, nor modules: one line [name: type] each, in the order of the
    sorted items, the type being the value's type name when it is [int],
    [str], [bytes], [float] or [bool], and [Any] otherwise. *)
Theorem module_variables_exact (module : ModuleType) (sigs class_sigs : Dict) :
  unique_keys (module_dict module) ->
  variable_pass infer_sig_from_docstring infer_prop_type_from_docstring module sigs
    class_sigs
  = map (fun item => fst item +++ ": " +++ variable_type (shape (snd item)))
      (filter is_module_variable (sorted_items (module_dict module))).
Proof.
  intros Hu. unfold variable_pass. rewrite variable_steps_contents. simpl app.
  f_equal. apply filter_ext_in. intros item Hin.
  assert (Hus : unique_keys (sorted_items (module_dict module))).
  { unfold unique_keys, sorted_items.
    eapply Permutation_NoDup; [|exact Hu].
    apply Permutation_map, Permutation_sym, sorted_perm. }
  unfold type_pass. rewrite type_steps_done. cbn [ps_done].
  destruct (function_steps_contents infer_sig_from_docstring module sigs
              (sorted_items (module_dict module)) (mkPassState [] [] []))
    as (Hd & _).
  cbv zeta in Hd. simpl in Hd. unfold function_pass. rewrite Hd.
  unfold PyStr.mem. rewrite existsb_app. fold (PyStr.mem (fst item)).
  change (existsb (String.eqb (fst item))) with (PyStr.mem (fst item)).
  rewrite (mem_selected_names _ (fun it => is_c_function (shape (snd it))) item Hus Hin).
  rewrite (mem_selected_names _
             (fun it => negb (is_dunder (fst it)) && is_c_type (shape (snd it)))
             item Hus Hin).
  unfold is_module_variable.
  destruct (is_dunder (fst item)), (is_c_function (shape (snd item))),
    (is_c_type (shape (snd item))), (ismodule (shape (snd item))); reflexivity.
Qed.

End ModuleSections.

Lemma function_stubs_in_name_order_witness :
  ps_done (function_pass stubutil_infer_sig_from_docstring module_one_order empty_dict)
  = ["f"]
  /\ StronglySorted (fun a b => PyStr.ltb a b = true)
       (ps_done (function_pass stubutil_infer_sig_from_docstring module_one_order
                   empty_dict)).
Proof.
  destruct (function_stubs_in_name_order stubutil_infer_sig_from_docstring
              module_one_order empty_dict) as (H1 & _ & H3).
  split; [exact H1|]. apply H3.
  unfold unique_keys. simpl. repeat constructor; simpl; intuition discriminate.
Defined.

Lemma module_variables_exact_witness :
  variable_pass stubutil_infer_sig_from_docstring
    stubutil_infer_prop_type_from_docstring module_without_dunders empty_dict empty_dict
  = map (fun item => fst item +++ ": " +++ variable_type (shape (snd item)))
      (filter is_module_variable (sorted_items (module_dict module_without_dunders)))
  /\ map (fun item => fst item +++ ": " +++ variable_type (shape (snd item)))
       (filter is_module_variable (sorted_items (module_dict module_without_dunders)))
     = ["version: str"].
Proof.
  split; [|reflexivity].
  apply module_variables_exact.
  unfold unique_keys. simpl. repeat constructor; simpl; intuition discriminate.
Defined.

(** ** The import block *)

(** X6.  The assembled output opens with the import block, which lists
    every recorded import line once, in strictly increasing order, whatever
    the order in which the set is enumerated. *)
Theorem import_block_sorted (set_of : list string -> list string)
    (imports variables functions types : list string) :
  set_enumeration set_of ->
  let block := sorted PyStr.ltb (set_of imports) in
  (exists rest, assemble set_of imports variables functions types = block ++ rest)
  /\ StronglySorted (fun a b => PyStr.ltb a b = true) block
  /\ NoDup block
  /\ (forall line, In line block <-> In line imports).
Proof.
  intros Hs block. destruct (Hs imports) as [Hn Hi].
  assert (Hp : Permutation block (set_of imports)) by apply sorted_perm.
  split; [|split; [|split]].
  - unfold assemble. fold block.
    destruct (append_type_lines_extend types
                (match block ++ variables, functions with
                 | _ :: _, _ :: _ => (block ++ variables) ++ [""]
                 | _, _ => block ++ variables
                 end ++ functions)) as [classes Hc].
    rewrite Hc.
    destruct (block ++ variables) eqn:E, functions; rewrite <- ?E;
      rewrite <- ?app_assoc; eauto.
  - apply (sorted_ascending (fun x : string => x) PyStr.ltb ltb_trans ltb_total).
    now rewrite map_id.
  - apply (Permutation_NoDup (Permutation_sym Hp) Hn).
  - intros line. rewrite <- Hi. split; apply Permutation_in; [|apply Permutation_sym];
      exact Hp.
Qed.

Lemma import_block_sorted_witness :
  sorted PyStr.ltb (set_of_list ["import b"; "import a"; "import b"])
  = ["import a"; "import b"]
  /\ NoDup (sorted PyStr.ltb (set_of_list ["import b"; "import a"; "import b"])).
Proof.
  split; [reflexivity|].
  apply (import_block_sorted set_of_list ["import b"; "import a"; "import b"] [] [] []
           set_of_list_enumerates).
Defined.

(** ** Class blocks *)

Section ClassBlocks.

Variable infer_sig_from_docstring : option string -> string -> option (string * string).
Variable infer_prop_type_from_docstring : option string -> option string.


Lemma render_bases_empty module bases imports :
  fst (render_bases module bases imports) = "" <-> bases = [].
Proof.
  unfold render_bases. destruct bases as [|b bases]; simpl; [tauto|].
  destruct (fold_left _ _ _). simpl. split; discriminate.
Qed.

End ClassBlocks.

(** ** Kept bases in general *)

Lemma keep_base_fold_subseq (candidates acc : list ClassRef) :
  exists added, fold_left keep_base candidates acc = acc ++ added
                /\ Subseq added candidates.
Proof.
  revert acc. induction candidates as [|c candidates IH]; intros acc.
  - exists []. split; [now rewrite app_nil_r | constructor].
  - cbn [fold_left]. destruct (IH (keep_base acc c)) as (added & Ha & Hs).
    rewrite Ha. unfold keep_base.
    destruct (existsb (fun b => issubclass b c) acc).
    + exists added. split; [reflexivity | now constructor].
    + exists (c :: added). rewrite <- app_assoc. split; [reflexivity | now constructor].
Qed.

(** X8.  For any resolution order, the kept bases are candidates in their
    original order; every candidate is a kept base or an ancestor of one; and
    no kept base is a subclass of a kept base that comes after it. *)
Theorem kept_bases_cover_candidates (mro : list ClassRef) :
  Subseq (minimal_bases mro) (drop_roots mro)
  /\ (forall base, In base (drop_roots mro) ->
        exists b, In b (minimal_bases mro) /\ (b = base \/ issubclass b base = true))
  /\ no_earlier_subclass (minimal_bases mro).
Proof.
  split.
  - unfold minimal_bases.
    destruct (keep_base_fold_subseq (drop_roots mro) []) as (added & -> & Hs).
    exact Hs.
  - apply minimal_bases_cover.
Qed.

Lemma kept_bases_cover_candidates_witness :
  minimal_bases [leaf_ref; mid_ref; root_ref; object_ref] = [mid_ref]
  /\ exists b, In b (minimal_bases [leaf_ref; mid_ref; root_ref; object_ref])
               /\ (b = root_ref \/ issubclass b root_ref = true).
Proof.
  split; [reflexivity|].
  apply (proj1 (proj2 (kept_bases_cover_candidates
                         [leaf_ref; mid_ref; root_ref; object_ref]))).
  simpl. auto.
Defined.

(** X9.  When the resolution order lists every class before its ancestors
    (no later entry is a subclass of an earlier one), no kept base is a
    subclass of another kept base: the kept bases are an antichain. *)
Theorem kept_bases_antichain (mro : list ClassRef) :
  no_later_subclass (drop_roots mro) -> antichain (minimal_bases mro).
Proof.
  intros Hlater. unfold antichain, minimal_bases.
  apply FOP_both.
  - destruct (keep_base_fold (drop_roots mro) []) as (_ & _ & Hearlier).
    apply Hearlier. constructor.
  - apply keep_base_fold_later. exact Hlater.
Qed.

(** Two unrelated bases [P] and [Q] of [D], with [mro(D) = [D, P, Q, object]]. *)
Lemma kept_bases_antichain_witness :
  minimal_bases [mkClassRef 1 "D" "mod" [1; 2; 3; 0]; mkClassRef 2 "P" "mod" [2; 0];
                 mkClassRef 3 "Q" "mod" [3; 0]; object_ref]
  = [mkClassRef 2 "P" "mod" [2; 0]; mkClassRef 3 "Q" "mod" [3; 0]]
  /\ antichain
       (minimal_bases [mkClassRef 1 "D" "mod" [1; 2; 3; 0];
                       mkClassRef 2 "P" "mod" [2; 0];
                       mkClassRef 3 "Q" "mod" [3; 0]; object_ref]).
Proof.
  split; [reflexivity|].
  apply kept_bases_antichain.
  unfold no_later_subclass. simpl. repeat constructor.
Defined.

(** ** Outcomes of a run *)

Section Outcomes.

Variable infer_sig_from_docstring : option string -> string -> option (string * string).
Variable infer_prop_type_from_docstring : option string -> option string.
Variable set_of : list string -> list string.


End Outcomes.


(** ** The receiver of a method stub *)

Lemma startswith_weaken (s t p : string) :
  PyStr.startswith s p = true -> PyStr.startswith (s +++ t) p = true.
Proof.
  intros H. rewrite (startswith_split _ _ H), append_assoc. apply startswith_append.
Qed.

Lemma append_empty_r (s : string) : s +++ "" = s.
Proof. induction s as [|c s IH]; simpl; [reflexivity | now rewrite IH]. Qed.

Lemma concat_head (x : string) (l : list string) :
  exists rest, String.concat ", " (x :: l) = x +++ rest
               /\ (rest = "" \/ PyStr.startswith rest ", " = true).
Proof.
  destruct l as [|y l]; simpl.
  - exists "". split; [now rewrite append_empty_r | now left].
  - eexists. split; [reflexivity | now right].
Qed.

(** ** Rendered text, apart from the import list *)

(** The name the resolver displays does not depend on the import list. *)
Lemma strip_or_import_fst (typ : string) (module : ModuleType) (imports : list string) :
  fst (strip_or_import typ module imports) = fst (strip_or_import typ module []).
Proof.
  unfold strip_or_import.
  destruct (PyStr.startswith typ (module_name module)); [reflexivity|].
  destruct (PyStr.contains "." typ); [|reflexivity].
  now destruct (String.eqb _ "builtins").
Qed.

Lemma render_args_fst (module : ModuleType) (args sig_types imports : list string) :
  fst (fold_left (render_arg module) args (sig_types, imports))
  = sig_types ++ map (rendered_arg module) args.
Proof.
  revert sig_types imports. induction args as [|arg args IH]; intros sig_types imports.
  - simpl. now rewrite app_nil_r.
  - cbn [fold_left map].
    assert (H : exists imports',
               render_arg module (sig_types, imports) arg
               = (sig_types ++ [rendered_arg module arg], imports')).
    { unfold render_arg, rendered_arg.
      destruct (PyStr.split1 ":" arg) as [a [t|]]; [|eauto].
      rewrite <- (strip_or_import_fst _ _ imports).
      destruct (strip_or_import (PyStr.strip t) module imports). simpl. eauto. }
    destruct H as (imports' & ->). rewrite IH, <- app_assoc. reflexivity.
Qed.

Lemma render_sig_fst (module : ModuleType) (sig : string) (imports : list string) :
  fst (render_sig module sig imports)
  = if PyStr.nonempty sig
    then String.concat ", " (map (rendered_arg module) (PyStr.split "," sig))
    else sig.
Proof.
  unfold render_sig. destruct (PyStr.nonempty sig); [|reflexivity].
  pose proof (render_args_fst module (PyStr.split "," sig) [] imports) as H.
  destruct (fold_left _ _ _) as [sig_types imports']. simpl in H. now subst.
Qed.

Lemma render_bases_fst (module : ModuleType) (bases : list ClassRef)
    (imports : list string) :
  fst (render_bases module bases imports)
  = match bases with
    | [] => ""
    | _ :: _ => "(" +++ String.concat ", " (map (base_name module) bases) +++ ")"
    end.
Proof.
  assert (H : forall l names imps,
             fst (fold_left (render_base module) l (names, imps))
             = names ++ map (base_name module) l).
  { induction l as [|b l IH]; intros names imps.
    - simpl. now rewrite app_nil_r.
    - cbn [fold_left map]. unfold render_base at 2.
      pose proof (strip_or_import_fst (cls_module b +++ "." +++ cls_name b) module imps)
        as Hn.
      destruct (strip_or_import _ module imps) as [n imps']. simpl in Hn.
      rewrite IH, <- app_assoc, Hn. reflexivity. }
  unfold render_bases. destruct bases as [|b bases]; [reflexivity|].
  specialize (H (b :: bases) [] imports).
  destruct (fold_left _ _ _) as [names imports']. simpl in H. now subst.
Qed.

Lemma split_nonempty (c : ascii) (s : string) : PyStr.split c s <> [].
Proof.
  destruct s as [|d s]; simpl; [discriminate|].
  destruct (Ascii.eqb d c); [discriminate|].
  destruct (PyStr.split c s); discriminate.
Qed.

(** ** The receiver of a method stub *)

(** The receiver prefix and the rendered parameters, put together. *)
Lemma receiver_params_text (module : ModuleType) (v sig : string)
    (imports : list string) :
  v = "self" \/ v = "cls" ->
  fst (place_self (Some v) sig)
    +++ fst (render_sig module (snd (place_self (Some v) sig)) imports)
  = String.concat ", " (receiver_params module v sig).
Proof.
  intros Hv.
  assert (Hne : PyStr.nonempty v = true) by (destruct Hv as [->| ->]; reflexivity).
  unfold place_self, receiver_params. rewrite Hne.
  destruct (PyStr.nonempty sig) eqn:Hs.
  - destruct (PyStr.split1 "," sig) as [g r]. cbn [fst snd].
    destruct (String.eqb g v || PyStr.startswith g (v +++ ":")).
    + cbn [fst snd]. rewrite render_sig_fst.
      assert (Hsplit : PyStr.nonempty (match r with
                                       | Some rest => v +++ "," +++ rest
                                       | None => v
                                       end) = true
                       /\ PyStr.split "," (match r with
                                           | Some rest => v +++ "," +++ rest
                                           | None => v
                                           end)
                          = v :: match r with
                                 | Some rest => PyStr.split "," rest
                                 | None => []
                                 end
                       /\ rendered_arg module v = v).
      { destruct Hv as [->| ->]; destruct r as [rest|]; simpl; auto. }
      destruct Hsplit as (-> & -> & Hfirst).
      cbn [map]. rewrite Hfirst. now destruct r.
    + cbn [fst snd]. rewrite render_sig_fst, Hs.
      pose proof (split_nonempty "," sig) as Hn.
      destruct (PyStr.split "," sig) as [|x l]; [contradiction|].
      cbn [map String.concat]. now rewrite append_assoc.
  - cbn [fst snd]. destruct sig; [|discriminate].
    destruct Hv as [->| ->]; reflexivity.
Qed.

(** The line of a method stub opens with [def name(], the bare receiver,
    and then [)] or [, ]. *)
Lemma method_line_receiver infer (module : ModuleType) (name : string) (obj : PyValue)
    (v : string) (sigs : Dict) (class_name : option string) (class_sigs : Dict) :
  exists rest,
    method_line infer module name obj v sigs class_name class_sigs
    = "def " +++ name +++ "(" +++ v +++ rest
    /\ (PyStr.startswith rest ")" = true \/ PyStr.startswith rest ", " = true).
Proof.
  unfold method_line. cbv zeta.
  set (cs := choose_sig infer name obj sigs class_name class_sigs).
  set (tail := ") -> " +++ fst (strip_or_import (snd cs) module []) +++ ": ...").
  assert (H : exists others,
             receiver_params module v (PyStr.slice 1 1 (fst cs)) = v :: others).
  { unfold receiver_params. destruct (PyStr.nonempty _); [|eauto].
    destruct (String.eqb _ v || PyStr.startswith _ (v +++ ":")); eauto. }
  destruct H as [others ->].
  destruct (concat_head v others) as (rest & -> & Hrest).
  exists (rest +++ tail). split.
  - now rewrite append_assoc.
  - destruct Hrest as [->|H]; [left; reflexivity | right; now apply startswith_weaken].
Qed.

Section Receiver.

Variable infer_sig_from_docstring : option string -> string -> option (string * string).
Variable infer_prop_type_from_docstring : option string -> option string.

(** A stub generated for a receiver appends exactly its line. *)
Lemma function_stub_method_line (module : ModuleType) (name : string) (obj : PyValue)
    (output imports : list string) (v : string) (sigs : Dict)
    (class_name : option string) (class_sigs : Dict) :
  v = "self" \/ v = "cls" ->
  fst (generate_c_function_stub infer_sig_from_docstring module name obj output
         imports (Some v) sigs class_name class_sigs)
  = output ++ [method_line infer_sig_from_docstring module name obj v sigs class_name
                 class_sigs].
Proof.
  intros Hv. rewrite generate_c_function_stub_eq. cbv zeta. cbn [fst].
  unfold method_line. cbv zeta.
  rewrite <- (receiver_params_text module v _ imports Hv).
  rewrite (strip_or_import_fst (snd _) module (snd _)).
  now rewrite !append_assoc.
Qed.

(** X10.  A stub generated for a receiver ([self] or [cls]) appends exactly
    one line: [def name(], the parameters joined by [, ], [) -> ], the
    displayed return type and [: ...].  The parameters are the bare receiver
    followed, when the chosen signature text opens with the receiver (bare,
    or annotated as in [self: T]), by the rendered parameters after it, and
    otherwise by all the rendered parameters of the text; so an annotated
    receiver is replaced and an absent one is added.  For an empty signature
    text the receiver is the only parameter, with no comma after it. *)
Theorem receiver_is_first_parameter (module : ModuleType) (name : string)
    (obj : PyValue) (output imports : list string) (v : string) (sigs : Dict)
    (class_name : option string) (class_sigs : Dict) :
  v = "self" \/ v = "cls" ->
  let cs := choose_sig infer_sig_from_docstring name obj sigs class_name class_sigs in
  let sig := PyStr.slice 1 1 (fst cs) in
  let params :=
    if PyStr.nonempty sig then
      if String.eqb (fst (PyStr.split1 "," sig)) v
         || PyStr.startswith (fst (PyStr.split1 "," sig)) (v +++ ":")
      then v :: match snd (PyStr.split1 "," sig) with
                | Some rest => map (rendered_arg module) (PyStr.split "," rest)
                | None => []
                end
      else v :: map (rendered_arg module) (PyStr.split "," sig)
    else [v] in
  fst (generate_c_function_stub infer_sig_from_docstring module name obj output
         imports (Some v) sigs class_name class_sigs)
  = output ++ ["def " +++ name +++ "(" +++ String.concat ", " params +++ ") -> "
                 +++ fst (strip_or_import (snd cs) module []) +++ ": ..."].
Proof.
  intros Hv cs sig params. now rewrite function_stub_method_line.
Qed.

(** ** The member loop *)

Lemma member_step_methods module class_name obj_dict sigs class_sigs st item :
  ms_methods (member_step infer_sig_from_docstring infer_prop_type_from_docstring
                module class_name obj_dict sigs class_sigs st item)
  = ms_methods st
      ++ member_methods infer_sig_from_docstring module class_name obj_dict sigs
           class_sigs item.
Proof.
  destruct item as [attr value]. unfold member_step, member_methods. cbn [fst snd].
  destruct (is_c_method value || is_c_classmethod value); cbn [andb].
  - destruct (negb (is_skipped_attribute attr)); [|now rewrite app_nil_r].
    destruct (String.eqb attr "__new__" && PyStr.mem "__init__" (map fst obj_dict)).
    + destruct (is_c_classmethod value); cbn [ms_methods app];
        now rewrite ?app_nil_r.
    + match goal with
      | |- context [generate_c_function_stub ?i ?m ?n ?o ?out ?imps (Some ?v) ?sg ?cn ?cs] =>
          pose proof (function_stub_method_line m n o out imps v sg cn cs) as H;
          destruct (generate_c_function_stub i m n o out imps (Some v) sg cn cs)
            as [methods' imports']
      end.
      cbn [fst ms_methods] in *. rewrite H by (destruct (is_c_classmethod value); auto).
      destruct (is_c_classmethod value); [|reflexivity].
      now rewrite <- app_assoc.
  - destruct (is_c_property value); cbn [ms_methods]; now rewrite app_nil_r.
Qed.



End Receiver.

Lemma receiver_is_first_parameter_witness :
  fst (generate_c_function_stub stubutil_infer_sig_from_docstring (mkModule "mod" [])
         "scale" (method_value (Some "scale(self: mod.K, factor: int) -> mod.K"))
         [] [] (Some "self") empty_dict (Some "K") empty_dict)
  = [] ++ ["def scale(self, factor: int) -> K: ..."]
  /\ fst (generate_c_function_stub stubutil_infer_sig_from_docstring (mkModule "mod" [])
            "size" (method_value (Some "size()")) [] [] (Some "self") empty_dict
            (Some "K") empty_dict)
     = [] ++ ["def size(self) -> Any: ..."]
  /\ fst (generate_c_function_stub stubutil_infer_sig_from_docstring (mkModule "mod" [])
            "make" (builtin_value (Some "make(count: int) -> mod.K")) [] []
            (Some "cls") empty_dict (Some "K") empty_dict)
     = [] ++ ["def make(cls, count: int) -> K: ..."].
Proof.
  split; [|split].
  - apply (receiver_is_first_parameter stubutil_infer_sig_from_docstring
             (mkModule "mod" []) "scale"
             (method_value (Some "scale(self: mod.K, factor: int) -> mod.K"))
             [] [] "self" empty_dict (Some "K") empty_dict).
    now left.
  - apply (receiver_is_first_parameter stubutil_infer_sig_from_docstring
             (mkModule "mod" []) "size" (method_value (Some "size()"))
             [] [] "self" empty_dict (Some "K") empty_dict).
    now left.
  - apply (receiver_is_first_parameter stubutil_infer_sig_from_docstring
             (mkModule "mod" []) "make"
             (builtin_value (Some "make(count: int) -> mod.K"))
             [] [] "cls" empty_dict (Some "K") empty_dict).
    now right.
Defined.

(** ** Classification of class methods *)

Section ClassMembers.

Variable infer_sig_from_docstring : option string -> string -> option (string * string).
Variable infer_prop_type_from_docstring : option string -> option string.

(** C2 (as amended).  A value is classified as a class method exactly when
    [inspect.isbuiltin] holds of it or the name of its type is [classmethod]
    or [classmethod_descriptor].  In the member loop a member so classified
    and not on the skip list appends the [@classmethod] marker immediately
    followed by its own line [def name(cls ...] (under the name [__init__]
    for [__new__]; the case of [__new__] in a class that also has [__init__]
    is left aside).  A method-like member that is not so classified appends
    its line [def name(self ...] alone, and a member that is not so
    classified, or is on the skip list, never appends the marker: it appends
    nothing at all when it is on the skip list or not method-like. *)
Theorem classmethod_classification (value : PyValue) :
  (is_c_classmethod value = true
   <-> isbuiltin value = true
       \/ type_name (py_type value) = "classmethod"
       \/ type_name (py_type value) = "classmethod_descriptor")
  /\ forall module class_name obj_dict sigs class_sigs st attr,
      let st' := member_step infer_sig_from_docstring infer_prop_type_from_docstring
                   module class_name obj_dict sigs class_sigs st (attr, value) in
      let name := if String.eqb attr "__new__" then "__init__" else attr in
      let line v := method_line infer_sig_from_docstring module name value v sigs
                      (Some class_name) class_sigs in
      let shadowed :=
        String.eqb attr "__new__" && PyStr.mem "__init__" (map fst obj_dict) in
      (is_c_classmethod value = true ->
       is_skipped_attribute attr = false ->
       shadowed = false ->
       ms_methods st' = ms_methods st ++ ["@classmethod"; line "cls"]
       /\ exists rest,
           line "cls" = "def " +++ name +++ "(cls" +++ rest
           /\ (PyStr.startswith rest ")" = true \/ PyStr.startswith rest ", " = true))
      /\ (is_c_classmethod value = false ->
          is_c_method value = true ->
          is_skipped_attribute attr = false ->
          shadowed = false ->
          ms_methods st' = ms_methods st ++ [line "self"]
          /\ exists rest,
              line "self" = "def " +++ name +++ "(self" +++ rest
              /\ (PyStr.startswith rest ")" = true
                  \/ PyStr.startswith rest ", " = true))
      /\ (is_c_classmethod value = false \/ is_skipped_attribute attr = true ->
          member_raises (attr, value) = false ->
          exists added,
            ms_methods st' = ms_methods st ++ added
            /\ ~ In "@classmethod" added
            /\ (is_skipped_attribute attr = true \/ is_c_method value = false ->
                added = [])).
Proof.
  split.
  - unfold is_c_classmethod, PyStr.mem, existsb.
    rewrite !orb_true_iff, !String.eqb_eq. intuition discriminate.
  - intros module class_name obj_dict sigs class_sigs st attr st' name line shadowed.
    subst st'. rewrite member_step_methods. unfold member_methods. cbn [fst snd].
    fold shadowed. fold name.
    split; [|split].
    + intros Hcm Hskip Hsh. rewrite Hcm, Hskip, Hsh, orb_true_r. cbn [andb negb app].
      split; [reflexivity|].
      destruct (method_line_receiver infer_sig_from_docstring module name value "cls"
                  sigs (Some class_name) class_sigs) as (rest & Hr & Hrest).
      exists rest. split; [exact Hr | exact Hrest].
    + intros Hcm Hm Hskip Hsh. rewrite Hcm, Hm, Hskip, Hsh. cbn [orb andb negb app].
      split; [reflexivity|].
      destruct (method_line_receiver infer_sig_from_docstring module name value "self"
                  sigs (Some class_name) class_sigs) as (rest & Hr & Hrest).
      exists rest. split; [exact Hr | exact Hrest].
    + intros Hcase _. eexists. split; [reflexivity|]. split.
      * destruct (is_skipped_attribute attr) eqn:Hskip;
          [rewrite andb_false_r; intros []|].
        destruct Hcase as [Hcm|Hcase]; [|discriminate]. rewrite Hcm.
        destruct ((is_c_method value || false) && negb false); [|intros []].
        cbn [app]. destruct shadowed; [intros []|].
        intros [H|[]].
        destruct (method_line_receiver infer_sig_from_docstring module name value
                    "self" sigs (Some class_name) class_sigs) as (rest & Hr & _).
        unfold line in *. rewrite Hr in H. discriminate H.
      * intros [Hskip|Hm].
        -- now rewrite Hskip, andb_false_r.
        -- rewrite Hm. cbn [orb].
           destruct (is_c_classmethod value) eqn:Hcm; [|reflexivity].
           destruct Hcase as [Hcase|Hskip]; [discriminate|].
           now rewrite Hskip.
Qed.

End ClassMembers.

Lemma classmethod_classification_witness :
  is_c_classmethod (builtin_value None) = true
  /\ ms_methods (member_step stubutil_infer_sig_from_docstring
                   stubutil_infer_prop_type_from_docstring (mkModule "mod" []) "K"
                   [("create", builtin_value None)] empty_dict empty_dict
                   (mkMemberState ["def add(self, *args, **kwargs) -> Any: ..."] [] [] [])
                   ("create", builtin_value None))
     = ["def add(self, *args, **kwargs) -> Any: ..."]
         ++ ["@classmethod"; "def create(cls, *args, **kwargs) -> Any: ..."]
  /\ ms_methods (member_step stubutil_infer_sig_from_docstring
                   stubutil_infer_prop_type_from_docstring (mkModule "mod" []) "K"
                   [("size", method_value None)] empty_dict empty_dict
                   (mkMemberState [] [] [] []) ("size", method_value None))
     = [] ++ ["def size(self, *args, **kwargs) -> Any: ..."].
Proof.
  split; [reflexivity|].
  split.
  - destruct (classmethod_classification stubutil_infer_sig_from_docstring
                stubutil_infer_prop_type_from_docstring (builtin_value None)) as [_ H].
    exact (proj1 (proj1 (H (mkModule "mod" []) "K" [("create", builtin_value None)]
                           empty_dict empty_dict
                           (mkMemberState ["def add(self, *args, **kwargs) -> Any: ..."]
                              [] [] [])
                           "create") eq_refl eq_refl eq_refl)).
  - destruct (classmethod_classification stubutil_infer_sig_from_docstring
                stubutil_infer_prop_type_from_docstring (method_value None)) as [_ H].
    exact (proj1 (proj1 (proj2 (H (mkModule "mod" []) "K" [("size", method_value None)]
                                  empty_dict empty_dict (mkMemberState [] [] [] [])
                                  "size")) eq_refl eq_refl eq_refl eq_refl)).
Defined.

(** C2, the claim as stated, fails: a member whose only distinction is to be
    an ordinary builtin callable (its type is [builtin_function_or_method],
    not a class-method marker) is classified and rendered as a class method,
    and the same value without the builtin flag is not. *)
Lemma builtin_member_is_classmethod :
  isbuiltin (builtin_value None) = true
  /\ PyStr.mem (type_name (py_type (builtin_value None)))
       ["classmethod"; "classmethod_descriptor"] = false
  /\ is_c_classmethod (builtin_value None) = true
  /\ is_c_classmethod
       (mkValue builtin_function_or_method false false false false false None false false
          false false)
     = false
  /\ generate_c_type_stub stubutil_infer_sig_from_docstring
       stubutil_infer_prop_type_from_docstring (mkModule "mod" []) "K"
       class_with_builtin_member [] [] empty_dict empty_dict
     = (["class K:"; "    @classmethod";
         "    def create(cls, *args, **kwargs) -> Any: ..."], []).
Proof. repeat split. Qed.

(** ** Order of the members of a class *)

Section MemberOrder.

Variable infer_sig_from_docstring : option string -> string -> option (string * string).
Variable infer_prop_type_from_docstring : option string -> option string.


(** ** Class blocks *)


End MemberOrder.



(** ** The bases of a chain *)

Section ChainBases.

Variable infer_sig_from_docstring : option string -> string -> option (string * string).
Variable infer_prop_type_from_docstring : option string -> option string.

(** C6.  For a class [A] whose resolution order is [A, B, C, object], with
    [B] a subclass of [C], the candidates left after removing [object], a
    final [pybind11_object] and [A] itself are [B] and possibly [C]; the kept
    base list is exactly [[B]], the nearest proper ancestor, and the base
    list is rendered as that single base.  [[B]] is an antichain, and it is
    minimal: every other candidate is an ancestor of a kept base.  The stub
    generated for such a class opens with the header [class Name(B)], where
    [B] is displayed as the resolver displays it: no other base is listed,
    whatever the members of the class are. *)
Theorem chain_keeps_nearest_ancestor (module : ModuleType) (imports : list string)
    (A B C O : ClassRef) :
  cls_id O = object_id ->
  issubclass B C = true ->
  drop_roots [A; B; C; O]
  = (if String.eqb (cls_name C) "pybind11_object" then [B] else [B; C])
  /\ minimal_bases [A; B; C; O] = [B]
  /\ antichain (minimal_bases [A; B; C; O])
  /\ (forall base, In base (drop_roots [A; B; C; O]) ->
        exists b, In b (minimal_bases [A; B; C; O])
                  /\ (b = base \/ issubclass b base = true))
  /\ render_bases module (minimal_bases [A; B; C; O]) imports
     = ("(" +++ fst (strip_or_import (cls_module B +++ "." +++ cls_name B) module imports)
            +++ ")",
        snd (strip_or_import (cls_module B +++ "." +++ cls_name B) module imports))
  /\ (forall class_name obj output sigs class_sigs,
        obj_mro obj = [A; B; C; O] ->
        type_stub_failure obj = None ->
        exists body,
          fst (generate_c_type_stub infer_sig_from_docstring
                 infer_prop_type_from_docstring module class_name obj output imports
                 sigs class_sigs)
          = output
              ++ ("class " +++ class_name +++ "("
                    +++ fst (strip_or_import (cls_module B +++ "." +++ cls_name B)
                               module [])
                    +++ ")" +++ (if is_nil body then ": ..." else ":"))
              :: body).
Proof.
  intros HO Hsub.
  assert (Hdrop : drop_roots [A; B; C; O]
                  = if String.eqb (cls_name C) "pybind11_object" then [B] else [B; C]).
  { unfold drop_roots. simpl. rewrite HO. simpl.
    now destruct (String.eqb (cls_name C) "pybind11_object"). }
  assert (Hmin : minimal_bases [A; B; C; O] = [B]).
  { unfold minimal_bases. rewrite Hdrop.
    destruct (String.eqb (cls_name C) "pybind11_object"); simpl;
      unfold keep_base; simpl; [reflexivity|].
    now rewrite Hsub. }
  split; [exact Hdrop|]. split; [exact Hmin|]. split; [|split; [|split]].
  - rewrite Hmin. constructor; constructor.
  - apply minimal_bases_cover.
  - rewrite Hmin. unfold render_bases, render_base. simpl.
    destruct (strip_or_import _ _ _) as [n imports']. reflexivity.
  - intros class_name obj output sigs class_sigs Hmro _.
    unfold generate_c_type_stub. rewrite Hmro, Hmin.
    set (st := fold_left _ _ _).
    set (variables := map _ _).
    pose proof (render_bases_fst module [B] (ms_imports st)) as Hb.
    destruct (render_bases module [B] (ms_imports st)) as [rendered imports'].
    cbn [fst map String.concat] in Hb. subst rendered. unfold base_name.
    destruct (ms_methods st) as [|m ms]; destruct variables as [|v vs];
      destruct (ms_properties st) as [|q qs]; cbn [fst];
      [exists [] | eexists (_ :: _) ..]; cbn [is_nil map app];
      rewrite ?append_assoc; cbn [app]; reflexivity.
Qed.

End ChainBases.

Lemma chain_keeps_nearest_ancestor_witness :
  issubclass mid_ref root_ref = true
  /\ minimal_bases [leaf_ref; mid_ref; root_ref; object_ref] = [mid_ref]
  /\ fst (generate_c_type_stub stubutil_infer_sig_from_docstring
            stubutil_infer_prop_type_from_docstring (mkModule "mod" []) "Leaf"
            leaf_class [] [] empty_dict empty_dict)
     = ["class Leaf(other.Mid): ..."]
  /\ exists body,
      fst (generate_c_type_stub stubutil_infer_sig_from_docstring
             stubutil_infer_prop_type_from_docstring (mkModule "mod" []) "Leaf"
             leaf_class [] [] empty_dict empty_dict)
      = [] ++ ("class Leaf(other.Mid" +++ ")" +++ (if is_nil body then ": ..." else ":"))
           :: body.
Proof.
  split; [reflexivity|].
  destruct (chain_keeps_nearest_ancestor stubutil_infer_sig_from_docstring
              stubutil_infer_prop_type_from_docstring (mkModule "mod" []) []
              leaf_ref mid_ref root_ref object_ref eq_refl eq_refl)
    as (_ & H1 & _ & _ & _ & H2).
  split; [exact H1|]. split; [reflexivity|].
  exact (H2 "Leaf" leaf_class [] empty_dict empty_dict eq_refl eq_refl).
Defined.

(** ** Blank lines *)

Lemma tidy_from_app (prev : bool) (l1 l2 : list string) :
  tidy_from prev l1 = true -> tidy_from prev (l1 ++ l2) = tidy_from true l2.
Proof.
  revert prev. induction l1 as [|x l1 IH]; intros prev; simpl.
  - now intros ->.
  - destruct (PyStr.nonempty x); [apply IH|].
    intros H. apply andb_true_iff in H as [-> H]. simpl. now apply IH.
Qed.

Lemma tidy_from_nonblank (l : list string) :
  Forall (fun line => PyStr.nonempty line = true) l -> tidy_from true l = true.
Proof. induction 1 as [|x l Hx Hl IH]; simpl; [reflexivity | now rewrite Hx]. Qed.

Lemma tidy_app_nonblank (l ls : list string) :
  tidy l = true -> Forall (fun line => PyStr.nonempty line = true) ls ->
  tidy (l ++ ls) = true.
Proof.
  intros Hl Hls. destruct l as [|x l].
  - destruct Hls as [|y ls Hy Hls]; [reflexivity|].
    simpl. rewrite Hy. now apply tidy_from_nonblank.
  - change (tidy_from false ((x :: l) ++ ls) = true).
    rewrite (tidy_from_app false (x :: l) ls Hl). now apply tidy_from_nonblank.
Qed.

Lemma tidy_blank_then (l : list string) (y : string) (ls : list string) :
  tidy l = true -> l <> [] ->
  Forall (fun line => PyStr.nonempty line = true) (y :: ls) ->
  tidy (l ++ "" :: y :: ls) = true.
Proof.
  intros Hl Hne Hls. destruct l as [|x l]; [contradiction|].
  change (tidy_from false ((x :: l) ++ "" :: y :: ls) = true).
  rewrite (tidy_from_app false (x :: l) _ Hl).
  inversion Hls; subst. simpl.
  match goal with H : PyStr.nonempty y = true |- _ => rewrite H end.
  now apply tidy_from_nonblank.
Qed.

Lemma tidy_append_type_line (output : list string) (line : string) :
  tidy output = true -> PyStr.nonempty line = true ->
  tidy (append_type_line output line) = true.
Proof.
  intros Ho Hl. unfold append_type_line.
  destruct (PyStr.startswith line "class" && PyStr.nonempty (last output "")) eqn:E.
  - apply andb_true_iff in E as [_ E].
    apply tidy_blank_then; [assumption| |now repeat constructor].
    intros ->. discriminate.
  - apply tidy_app_nonblank; [assumption | now repeat constructor].
Qed.

Lemma tidy_assemble (set_of : list string -> list string)
    (imports variables functions types : list string) :
  Forall (fun line => PyStr.nonempty line = true) (set_of imports) ->
  Forall (fun line => PyStr.nonempty line = true) variables ->
  Forall (fun line => PyStr.nonempty line = true) functions ->
  Forall (fun line => PyStr.nonempty line = true) types ->
  tidy (assemble set_of imports variables functions types) = true.
Proof.
  intros Hi Hv Hf Ht. unfold assemble.
  set (head := sorted PyStr.ltb (set_of imports) ++ variables).
  assert (Hhead : tidy head = true).
  { apply (tidy_app_nonblank [] head eq_refl). apply Forall_app. split; [|assumption].
    rewrite Forall_forall in *. intros x Hx. apply Hi.
    eapply Permutation_in; [apply sorted_perm | exact Hx]. }
  assert (Hmid : tidy (match head, functions with
                       | _ :: _, _ :: _ => head ++ [""]
                       | _, _ => head
                       end ++ functions) = true).
  { destruct head as [|h head'] eqn:Eh, functions as [|f fs].
    - reflexivity.
    - now apply (tidy_app_nonblank [] (f :: fs) eq_refl).
    - now rewrite app_nil_r.
    - rewrite <- app_assoc. apply tidy_blank_then; [assumption|discriminate|assumption]. }
  revert Hmid. generalize (match head, functions with
                           | _ :: _, _ :: _ => head ++ [""]
                           | _, _ => head
                           end ++ functions).
  clear -Ht. induction Ht as [|line types Hl Ht IH]; intros output Ho; simpl.
  - assumption.
  - apply IH. now apply tidy_append_type_line.
Qed.

Lemma tidy_add_typing_import (output : list string) :
  tidy output = true -> tidy (add_typing_import output) = true.
Proof.
  intros Ho. unfold add_typing_import.
  destruct (filter _ typing_names) as [|name names] eqn:E; [assumption|].
  assert (Hin : In name (name :: names)) by now left.
  rewrite <- E in Hin. apply filter_In in Hin as [_ Hex].
  destruct output as [|x output]; [discriminate|].
  exact Ho.
Qed.

Lemma startswith_nonempty (s p : string) (c : ascii) :
  PyStr.startswith s (String c p) = true -> PyStr.nonempty s = true.
Proof. destruct s; [discriminate | reflexivity]. Qed.

Lemma nonempty_append (a b : string) (c : ascii) :
  PyStr.nonempty (a +++ String c b) = true.
Proof. now destruct a. Qed.

Section TidyStub.

Variable infer_sig_from_docstring : option string -> string -> option (string * string).
Variable infer_prop_type_from_docstring : option string -> option string.

Lemma type_stub_lines_nonblank module class_name obj output imports sigs class_sigs :
  Forall (fun line => PyStr.nonempty line = true) output ->
  Forall (fun line => PyStr.nonempty line = true)
    (fst (generate_c_type_stub infer_sig_from_docstring infer_prop_type_from_docstring
            module class_name obj output imports sigs class_sigs)).
Proof.
  intros Ho. unfold generate_c_type_stub.
  set (st := fold_left _ _ _).
  destruct (render_bases module (minimal_bases (obj_mro obj)) (ms_imports st))
    as [bases_str imports'].
  assert (Hind : forall l, Forall (fun line => PyStr.nonempty line = true)
                             (map indent l)).
  { intros l. apply Forall_forall. intros x Hx.
    apply in_map_iff in Hx as (y & <- & _). reflexivity. }
  destruct (ms_methods st) as [|m ms];
    destruct (map _ (filter _ _)) as [|v vs];
    destruct (ms_properties st) as [|q qs]; cbn [fst];
    repeat (apply Forall_app; split); try assumption; try apply Hind;
    repeat constructor.
Qed.

Lemma type_steps_lines_nonblank module sigs class_sigs items st :
  Forall (fun line => PyStr.nonempty line = true) (ps_lines st) ->
  Forall (fun line => PyStr.nonempty line = true)
    (ps_lines (fold_left (type_step infer_sig_from_docstring
                            infer_prop_type_from_docstring module sigs class_sigs)
                 items st)).
Proof.
  revert st. induction items as [|[name obj] items IH]; intros st Hs; [assumption|].
  cbn [fold_left]. apply IH. unfold type_step.
  destruct (is_dunder name); [assumption|].
  destruct (is_c_type (shape obj)); [|assumption].
  pose proof (type_stub_lines_nonblank module name obj (ps_lines st) (ps_imports st)
                sigs class_sigs Hs) as H.
  now destruct (generate_c_type_stub _ _ _ _ _ _ _ _ _).
Qed.

(** X7.  The lines of a stub never begin or end with a blank line and never
    hold two blank lines in a row: every import, constant, function and class
    line is non-empty, and a blank line is only ever put between two of
    them. *)
Theorem stub_is_tidy (set_of : list string -> list string) (module : ModuleType)
    (sigs class_sigs : Dict) :
  set_enumeration set_of ->
  tidy (stub_lines infer_sig_from_docstring infer_prop_type_from_docstring set_of
          module sigs class_sigs) = true.
Proof.
  intros Hs. unfold stub_lines. apply tidy_add_typing_import, tidy_assemble.
  - assert (Hg : grows [] (ps_imports (type_pass infer_sig_from_docstring
                                         infer_prop_type_from_docstring module sigs
                                         class_sigs))).
    { eapply grows_trans.
      - unfold function_pass.
        apply (function_steps_grow infer_sig_from_docstring module sigs
                 (sorted_items (module_dict module)) (mkPassState [] [] [])).
      - unfold type_pass.
        apply (type_steps_grow infer_sig_from_docstring infer_prop_type_from_docstring
                 module sigs class_sigs (sorted_items (module_dict module))
                 (mkPassState [] (ps_imports (function_pass infer_sig_from_docstring
                                                module sigs))
                    (ps_done (function_pass infer_sig_from_docstring module sigs)))). }
    destruct Hg as (added & Ha & Hf). simpl in Ha.
    apply Forall_forall. intros line Hin.
    apply (proj1 (proj2 (Hs _) line)) in Hin. rewrite Ha in Hin.
    rewrite Forall_forall in Hf. specialize (Hf line Hin).
    now apply startswith_nonempty in Hf.
  - unfold variable_pass. rewrite variable_steps_contents. simpl app.
    apply Forall_forall. intros line Hin.
    apply in_map_iff in Hin as (item & <- & _). apply nonempty_append.
  - destruct (function_steps_contents infer_sig_from_docstring module sigs
                (sorted_items (module_dict module)) (mkPassState [] [] []))
      as (_ & lines & Hl & Hf).
    cbv zeta in Hl, Hf. simpl in Hl. unfold function_pass. rewrite Hl.
    clear Hl. induction Hf as [|item line fs lines Hh Hf IH]; constructor; [|assumption].
    now apply startswith_nonempty in Hh.
  - unfold type_pass. apply type_steps_lines_nonblank. constructor.
Qed.

End TidyStub.

Lemma stub_is_tidy_witness :
  tidy (stub_lines stubutil_infer_sig_from_docstring
          stubutil_infer_prop_type_from_docstring set_of_list module_one_order
          empty_dict empty_dict) = true
  /\ stub_lines stubutil_infer_sig_from_docstring
       stubutil_infer_prop_type_from_docstring set_of_list module_one_order
       empty_dict empty_dict
     = ["from typing import Any"; ""; "import other"; "";
        "def f(*args, **kwargs) -> Any: ..."; ""; "class K(other.Base):";
        "    def size(self, *args, **kwargs) -> Any: ...";
        "    def __eq__(self, other) -> Any: ..."].
Proof.
  split; [|reflexivity].
  apply (stub_is_tidy stubutil_infer_sig_from_docstring
           stubutil_infer_prop_type_from_docstring set_of_list module_one_order
           empty_dict empty_dict set_of_list_enumerates).
Defined.

(** ** Constructors and class blocks *)

Section Constructors.

Variable infer_sig_from_docstring : option string -> string -> option (string * string).
Variable infer_prop_type_from_docstring : option string -> option string.

(** X13.  A method-like member called [__new__] is never rendered under its
    own name.  When the class also has [__init__], it adds no [def] line at
    all (only the [@classmethod] marker, if it is classified as a class
    method) and records no import; when the class has no [__init__], it is
    rendered as [def __init__(...)].  Either way [__new__] is marked done, so
    it is not declared as a variable. *)
Theorem allocator_becomes_initializer (module : ModuleType) (class_name : string)
    (obj_dict : list (string * PyValue)) (sigs class_sigs : Dict) (st : MemberState)
    (value : PyValue) :
  is_c_method value || is_c_classmethod value = true ->
  let st' := member_step infer_sig_from_docstring infer_prop_type_from_docstring
               module class_name obj_dict sigs class_sigs st ("__new__", value) in
  let marker := if is_c_classmethod value then ["@classmethod"] else [] in
  (PyStr.mem "__init__" (map fst obj_dict) = true ->
   ms_methods st' = ms_methods st ++ marker
   /\ ms_imports st' = ms_imports st
   /\ ms_properties st' = ms_properties st)
  /\ (PyStr.mem "__init__" (map fst obj_dict) = false ->
      exists rest,
        ms_methods st' = ms_methods st ++ marker ++ ["def __init__(" +++ rest])
  /\ ms_done st' = ms_done st ++ ["__new__"].
Proof.
  intros Hm st' marker. subst st' marker. unfold member_step. rewrite Hm.
  change (is_skipped_attribute "__new__") with false.
  change (String.eqb "__new__" "__new__") with true. cbn [negb andb].
  destruct (PyStr.mem "__init__" (map fst obj_dict)) eqn:Hi.
  - split; [intros _|split; [discriminate|reflexivity]].
    destruct (is_c_classmethod value); cbn [ms_methods ms_imports ms_properties];
      rewrite ?app_nil_r; auto.
  - split; [discriminate|].
    match goal with
    | |- context [generate_c_function_stub ?i ?m ?n ?o ?out ?imps ?sv ?sg ?cn ?cs] =>
        destruct (generate_c_function_stub_line i m n o out imps sv sg cn cs)
          as [r Hr];
        destruct (generate_c_function_stub i m n o out imps sv sg cn cs)
          as [methods' imports']
    end.
    cbn [fst] in Hr. subst methods'. cbn [ms_methods ms_done].
    split; [intros _|reflexivity].
    exists r. destruct (is_c_classmethod value); cbn [app];
      rewrite <- ?app_assoc; reflexivity.
Qed.

Lemma type_stub_block module class_name obj output imports sigs class_sigs :
  exists rest body,
    fst (generate_c_type_stub infer_sig_from_docstring infer_prop_type_from_docstring
           module class_name obj output imports sigs class_sigs)
    = output ++ ("class " +++ class_name +++ rest) :: map indent body.
Proof.
  unfold generate_c_type_stub.
  set (st := fold_left _ _ _).
  destruct (render_bases module (minimal_bases (obj_mro obj)) (ms_imports st))
    as [bases_str imports'].
  destruct (ms_methods st) as [|m ms];
    destruct (map _ (filter _ _)) as [|v vs];
    destruct (ms_properties st) as [|q qs]; cbn [fst].
  1: exists (bases_str +++ ": ..."), []; reflexivity.
  all: exists (bases_str +++ ":"); eexists; cbn [app];
    rewrite <- ?map_app; cbn [app]; try reflexivity.
  all: try (instantiate (1 := _ :: _); cbn [map]; reflexivity).
Qed.

End Constructors.

Lemma allocator_becomes_initializer_witness :
  ms_methods (member_step stubutil_infer_sig_from_docstring
                stubutil_infer_prop_type_from_docstring (mkModule "mod" []) "K"
                [("__new__", builtin_value None)] empty_dict empty_dict
                (mkMemberState [] [] [] []) ("__new__", builtin_value None))
  = ["@classmethod"; "def __init__(cls, *args, **kwargs) -> None: ..."]
  /\ ms_methods (member_step stubutil_infer_sig_from_docstring
                   stubutil_infer_prop_type_from_docstring (mkModule "mod" []) "K"
                   [("__init__", slot_value None); ("__new__", builtin_value None)]
                   empty_dict empty_dict
                   (mkMemberState ["def __init__(self, *args, **kwargs) -> None: ..."]
                      [] ["__init__"] [])
                   ("__new__", builtin_value None))
     = ["def __init__(self, *args, **kwargs) -> None: ..."] ++ ["@classmethod"].
Proof.
  split; [reflexivity|].
  destruct (allocator_becomes_initializer stubutil_infer_sig_from_docstring
              stubutil_infer_prop_type_from_docstring (mkModule "mod" []) "K"
              [("__init__", slot_value None); ("__new__", builtin_value None)]
              empty_dict empty_dict
              (mkMemberState ["def __init__(self, *args, **kwargs) -> None: ..."]
                 [] ["__init__"] [])
              (builtin_value None) eq_refl) as (H & _ & _).
  exact (proj1 (H eq_refl)).
Defined.

Section ClassOrder.

Variable infer_sig_from_docstring : option string -> string -> option (string * string).
Variable infer_prop_type_from_docstring : option string -> option string.

Lemma type_steps_blocks module sigs class_sigs items st :
  exists blocks,
    ps_lines (fold_left (type_step infer_sig_from_docstring
                           infer_prop_type_from_docstring module sigs class_sigs)
                items st)
    = ps_lines st ++ concat blocks
    /\ Forall2 (fun item block =>
                  exists rest body,
                    block = ("class " +++ fst item +++ rest) :: map indent body)
         (filter (fun item => negb (is_dunder (fst item))
                              && is_c_type (shape (snd item))) items)
         blocks.
Proof.
  revert st. induction items as [|[name obj] items IH]; intros st.
  - exists []. simpl. rewrite app_nil_r. split; [reflexivity | constructor].
  - cbn [fold_left filter fst snd].
    destruct (IH (type_step infer_sig_from_docstring infer_prop_type_from_docstring
                    module sigs class_sigs st (name, obj))) as (blocks & Hl & Hf).
    rewrite Hl. clear Hl. unfold type_step.
    destruct (is_dunder name); cbn [negb andb]; [eauto|].
    destruct (is_c_type (shape obj)); [|eauto].
    destruct (type_stub_block infer_sig_from_docstring infer_prop_type_from_docstring
                module name obj (ps_lines st) (ps_imports st) sigs class_sigs)
      as (rest & body & Hb).
    destruct (generate_c_type_stub _ _ _ _ _ _ _ _ _) as [types imports'].
    cbn [fst] in Hb. subst types. cbn [ps_lines].
    exists ((("class " +++ name +++ rest) :: map indent body) :: blocks).
    split.
    + cbn [concat]. now rewrite <- app_assoc.
    + constructor; [|assumption]. cbn [fst]. eauto.
Qed.

(** X14.  The type pass emits one block per item that is a type and has no
    dunder name, in the order of the sorted items; a block is a header line
    that opens with [class] and the name the module gives the type, followed
    by indented lines only. *)
Theorem class_blocks_in_name_order (module : ModuleType) (sigs class_sigs : Dict) :
  let items := sorted_items (module_dict module) in
  exists blocks,
    ps_lines (type_pass infer_sig_from_docstring infer_prop_type_from_docstring
                module sigs class_sigs)
    = concat blocks
    /\ Forall2 (fun item block =>
                  exists rest body,
                    block = ("class " +++ fst item +++ rest) :: map indent body)
         (filter (fun item => negb (is_dunder (fst item))
                              && is_c_type (shape (snd item))) items)
         blocks.
Proof.
  intros items. unfold type_pass. fold items.
  destruct (type_steps_blocks module sigs class_sigs items
              (mkPassState [] (ps_imports (function_pass infer_sig_from_docstring
                                             module sigs))
                 (ps_done (function_pass infer_sig_from_docstring module sigs))))
    as (blocks & Hl & Hf).
  exists blocks. split; [exact Hl | exact Hf].
Qed.

End ClassOrder.
